(** * plots.py: the performance-report plotting script

    A shallow embedding of [src/plots.py].  The script is a straight line of
    calls into pandas, numpy and matplotlib.pyplot; each call is modelled by
    a primitive of a state-and-exception monad, and the script itself is the
    monadic term [script], statement for statement.

    Modelling boundary (the libraries are not part of the repository):
    - the input file is held tokenised: a header and the data lines, each a
      list of numeric fields.  Delimiters, quoting and blank-line skipping
      belong to the pandas tokeniser; a "data line" is one tokenised record;
    - fields are numeric (integer or binary64 literal) or empty, which is the
      data model of the report.  Text fields (object columns) are outside it;
    - binary64 arithmetic is IEEE 754 as specified by [SpecFloat], with a
      single NaN;
    - the working directory is writable and pyplot calls on numeric series
      of equal length do not raise. *)

From Stdlib Require Import ZArith List String Bool Lia.
From Stdlib Require Import Floats.SpecFloat.
From stdpp Require Import gmap strings list.

Local Open Scope Z_scope.
Local Open Scope string_scope.

(** ** binary64 *)

Module Binary64.

Definition prec : Z := 53.
Definition emax : Z := 1024.

Definition float64 : Type := spec_float.

(** Conversion of an integer to the nearest binary64 (ties to even), as
    numpy casts an int64 operand of a true division. *)
Definition of_int (z : Z) : float64 := binary_normalize prec emax z 0 false.

Definition div (x y : float64) : float64 := SFdiv prec emax x y.
Definition add (x y : float64) : float64 := SFadd prec emax x y.
Definition sub (x y : float64) : float64 := SFsub prec emax x y.

Definition nan : float64 := S754_nan.

Definition is_zero (x : float64) : bool :=
  match x with S754_zero _ => true | _ => false end.

Definition is_finite (x : float64) : bool :=
  match x with S754_zero _ | S754_finite _ _ _ => true | _ => false end.

(** The literal [0.2]: the binary64 nearest to one fifth. *)
Definition lit_0_2 : float64 := S754_finite false 7205759403792794 (-55).

(** The values [5.0] and [10.0]. *)
Definition lit_5_0 : float64 := S754_finite false 5629499534213120 (-50).
Definition lit_10_0 : float64 := S754_finite false 5629499534213120 (-49).

End Binary64.

Import Binary64.

(** ** Series and data frames *)

(** One entry of a numeric column. *)
Inductive num : Type :=
| NInt (z : Z)
| NFloat (f : float64).

(** A pandas Series of dtype int64 or float64. *)
Inductive series : Type :=
| Int64 (l : list Z)
| Float64 (l : list float64).

Definition series_len (s : series) : nat :=
  match s with
  | Int64 l => length l
  | Float64 l => length l
  end.

Definition series_at (s : series) (i : nat) : option num :=
  match s with
  | Int64 l => NInt <$> l !! i
  | Float64 l => NFloat <$> l !! i
  end.

Definition as_float (v : num) : float64 :=
  match v with
  | NInt z => of_int z
  | NFloat f => f
  end.

Definition astype_float (s : series) : list float64 :=
  match s with
  | Int64 l => map of_int l
  | Float64 l => l
  end.

(** [a / b] on two Series: numpy's [true_divide], elementwise, always
    float64.  pandas evaluates it with floating-point errors ignored, so a
    zero divisor yields an infinity or NaN and nothing is raised.  Both
    operands are columns of the same frame and share its index. *)
Definition truediv (a b : series) : series :=
  Float64 (zip_with div (astype_float a) (astype_float b)).

(** [np.arange(n)] *)
Definition arange (n : nat) : series := Int64 (map Z.of_nat (seq 0 n)).

(** [a - c] and [a + c] for an array and a float scalar. *)
Definition sub_scalar (a : series) (c : float64) : series :=
  Float64 (map (fun v => sub v c) (astype_float a)).
Definition add_scalar (a : series) (c : float64) : series :=
  Float64 (map (fun v => add v c) (astype_float a)).

(** A DataFrame: the length of its index (the only part of the index the
    script observes, through [len(df)]) and its columns in order. *)
Record DataFrame : Type := mkDataFrame {
  nrows : nat;
  columns : list (string * series)
}.

Fixpoint getcol (name : string) (cols : list (string * series)) : option series :=
  match cols with
  | [] => None
  | (k, v) :: rest => if String.eqb k name then Some v else getcol name rest
  end.

(** Column assignment: an existing column is replaced in place, a new one
    is appended after the last column. *)
Fixpoint setcol (name : string) (v : series) (cols : list (string * series))
  : list (string * series) :=
  match cols with
  | [] => [(name, v)]
  | (k, x) :: rest =>
      if String.eqb k name then (k, v) :: rest else (k, x) :: setcol name v rest
  end.

Definition cell_at (d : DataFrame) (name : string) (i : nat) : option num :=
  match getcol name (columns d) with
  | Some s => series_at s i
  | None => None
  end.

(** ** The input file and [pd.read_csv] *)

Inductive field : Type :=
| Empty
| IntLit (z : Z)
| FloatLit (f : float64).

Definition field_float (c : field) : float64 :=
  match c with
  | Empty => nan
  | IntLit z => of_int z
  | FloatLit f => f
  end.

Fixpoint all_int (cells : list field) : option (list Z) :=
  match cells with
  | [] => Some []
  | IntLit z :: rest =>
      match all_int rest with
      | Some zs => Some (z :: zs)
      | None => None
      end
  | _ :: _ => None
  end.

(** dtype inference: a column of integer literals only is int64; any float
    literal or empty field makes it float64, empty fields reading as NaN.
    Integer literals are taken to fit the 64-bit integer dtype; a column
    without rows, which pandas types as object, is modelled as an empty
    int64 column. *)
Definition infer (cells : list field) : series :=
  match all_int cells with
  | Some zs => Int64 zs
  | None => Float64 (map field_float cells)
  end.

(** The fields of column [j], one per data line in file order; a line that
    ends early is padded with empty fields. *)
Definition column_cells (j : nat) (lines : list (list field)) : list field :=
  map (fun line => nth j line Empty) lines.

Fixpoint build_columns (j : nat) (header : list string) (lines : list (list field))
  : list (string * series) :=
  match header with
  | [] => []
  | name :: rest => (name, infer (column_cells j lines)) :: build_columns (S j) rest lines
  end.

(** When the first data line has more fields than the header, pandas takes
    the leading surplus fields as the row index. *)
Definition leading_cols (header : list string) (lines : list (list field)) : nat :=
  match lines with
  | [] => 0%nat
  | first :: _ => (length first - length header)%nat
  end.

Definition too_long (width : nat) (line : list field) : bool :=
  Nat.ltb width (length line).

Inductive exn : Type :=
| FileNotFoundError (path : string)
| ParserError
| KeyError (key : string)
| NameError (name : string).

(** [parse header lines]: the frame for a tokenised file, or the parser's
    refusal (no header, or a data line wider than the table). *)
Definition parse (header : list string) (lines : list (list field)) : option DataFrame :=
  match header with
  | [] => None
  | _ :: _ =>
      let lead := leading_cols header lines in
      if existsb (too_long (lead + length header)) lines then None
      else Some (mkDataFrame (length lines) (build_columns lead header lines))
  end.

(** ** Figures, files and the program state *)

Inductive artist : Type :=
| Line2D (x y : series) (marker label : string)
| Bar (x height : series) (width : float64) (label align : string)
| AxHLine (y : Z) (color linestyle label : string)
| XScale (scale : string)
| YScale (scale : string)
| XLabel (text : string)
| YLabel (text : string)
| Title (text : string)
| Legend
| Grid (on : bool)
| TightLayout
| XTicks (ticks labels : series).

Record figure : Type := mkFigure {
  figsize : option (Z * Z);
  artists : list artist
}.

Inductive file : Type :=
| Csv (header : list string) (lines : list (list field))
| Png (dpi : Z) (fig : figure)
| Other.

(** Effectful library calls that completed, in the order they happened.
    A call that raises leaves no event. *)
Inductive event : Type :=
| EvRead (path : string)
| EvFigure
| EvDraw
| EvSave (path : string)
| EvShow
| EvSetitem (column : string).

Record state : Type := mkState {
  df : option DataFrame;          (* the global [df] *)
  gcf : figure;                   (* pyplot's current figure *)
  cwd : gmap string file;         (* the working directory *)
  trace : list event
}.

Inductive outcome (A : Type) : Type :=
| Ok (a : A) (s : state)
| Raised (e : exn) (s : state).
Arguments Ok {A} a s.
Arguments Raised {A} e s.

Definition final {A} (o : outcome A) : state :=
  match o with
  | Ok _ s => s
  | Raised _ s => s
  end.

Definition M (A : Type) : Type := state -> outcome A.

Definition ret {A} (a : A) : M A := fun s => Ok a s.
Definition raise {A} (e : exn) : M A := fun s => Raised e s.
Definition bind {A B} (m : M A) (k : A -> M B) : M B :=
  fun s =>
    match m s with
    | Ok a s' => k a s'
    | Raised e s' => Raised e s'
    end.

Declare Scope script_scope.
Delimit Scope script_scope with script.
Notation "x <- m ;; k" := (bind m (fun x => k))
  (at level 100, m at next level, right associativity) : script_scope.
Notation "m ;; k" := (bind m (fun _ => k))
  (at level 100, right associativity) : script_scope.
Local Open Scope script_scope.

Definition log (e : event) (s : state) : state :=
  mkState (df s) (gcf s) (cwd s) (trace s ++ [e]).

(** ** Library calls *)

(** [df = pd.read_csv(path)] *)
Definition read_csv (path : string) : M unit :=
  fun s =>
    match cwd s !! path with
    | None => Raised (FileNotFoundError path) s
    | Some (Csv header lines) =>
        match parse header lines with
        | Some d => Ok tt (log (EvRead path) (mkState (Some d) (gcf s) (cwd s) (trace s)))
        | None => Raised ParserError s
        end
    | Some _ => Raised ParserError s
    end.

(** [df[name]] *)
Definition getitem (name : string) : M series :=
  fun s =>
    match df s with
    | None => Raised (NameError "df") s
    | Some d =>
        match getcol name (columns d) with
        | Some v => Ok v s
        | None => Raised (KeyError name) s
        end
    end.

(** [len(df)] *)
Definition len_df : M nat :=
  fun s =>
    match df s with
    | None => Raised (NameError "df") s
    | Some d => Ok (nrows d) s
    end.

(** [df[name] = v] for a Series [v] *)
Definition setitem (name : string) (v : series) : M unit :=
  fun s =>
    match df s with
    | None => Raised (NameError "df") s
    | Some d =>
        Ok tt (log (EvSetitem name)
                 (mkState (Some (mkDataFrame (nrows d) (setcol name v (columns d))))
                    (gcf s) (cwd s) (trace s)))
    end.

(** [df[name] = z] for an integer scalar, broadcast over the index *)
Definition setitem_scalar (name : string) (z : Z) : M unit :=
  fun s =>
    match df s with
    | None => Raised (NameError "df") s
    | Some d => setitem name (Int64 (repeat z (nrows d))) s
    end.

(** [plt.figure(figsize=(w, h))] *)
Definition plt_figure (w h : Z) : M unit :=
  fun s => Ok tt (log EvFigure (mkState (df s) (mkFigure (Some (w, h)) []) (cwd s) (trace s))).

(** Every drawing call adds one artist to the current figure. *)
Definition draw (a : artist) : M unit :=
  fun s =>
    Ok tt (log EvDraw
             (mkState (df s) (mkFigure (figsize (gcf s)) (artists (gcf s) ++ [a]))
                (cwd s) (trace s))).

Definition write_file (path : string) (f : file) (dir : gmap string file)
  : gmap string file := <[path := f]> dir.

(** [plt.savefig(path, dpi=dpi)]: the file is created or replaced. *)
Definition plt_savefig (path : string) (dpi : Z) : M unit :=
  fun s =>
    Ok tt (log (EvSave path)
             (mkState (df s) (gcf s) (write_file path (Png dpi (gcf s)) (cwd s)) (trace s))).

(** [plt.show()] *)
Definition plt_show : M unit := fun s => Ok tt (log EvShow s).

(** ** The script *)

Definition input_csv : string := "complete_performance_report.csv".
Definition chart1_png : string := "execution_time_comparison.png".
Definition chart2_png : string := "speedup_comparison.png".
Definition chart3_png : string := "relative_performance_comparison.png".

(** Lines 9-22. *)
Definition plot1 : M unit :=
  plt_figure 12 6 ;;
  x <- getitem "Input Size" ;; y <- getitem "Sequential Time" ;;
  draw (Line2D x y "o" "Sequential") ;;
  x <- getitem "Input Size" ;; y <- getitem "Parallel Time" ;;
  draw (Line2D x y "s" "Parallel") ;;
  x <- getitem "Input Size" ;; y <- getitem "Optimized Parallel Time" ;;
  draw (Line2D x y "^" "Optimized Parallel") ;;
  draw (XScale "log") ;;
  draw (YScale "log") ;;
  draw (XLabel "Input Size") ;;
  draw (YLabel "Execution Time (seconds)") ;;
  draw (Title "Execution Time Comparison") ;;
  draw Legend ;;
  draw (Grid true) ;;
  draw TightLayout ;;
  plt_savefig chart1_png 300 ;;
  plt_show.

(** Lines 25-37. *)
Definition plot2 : M unit :=
  plt_figure 12 6 ;;
  x <- getitem "Input Size" ;; y <- getitem "Parallel Speedup" ;;
  draw (Line2D x y "o" "Parallel Speedup") ;;
  x <- getitem "Input Size" ;; y <- getitem "Optimized Speedup" ;;
  draw (Line2D x y "s" "Optimized Speedup") ;;
  draw (AxHLine 1 "r" "--" "Baseline (Sequential)") ;;
  draw (XScale "log") ;;
  draw (XLabel "Input Size") ;;
  draw (YLabel "Speedup") ;;
  draw (Title "Speedup Comparison") ;;
  draw Legend ;;
  draw (Grid true) ;;
  draw TightLayout ;;
  plt_savefig chart2_png 300 ;;
  plt_show.

(** Lines 40-42: the derived columns. *)
Definition derive_columns : M unit :=
  setitem_scalar "Sequential Relative" 1 ;;
  a <- getitem "Sequential Time" ;; b <- getitem "Parallel Time" ;;
  setitem "Parallel Relative" (truediv a b) ;;
  a <- getitem "Sequential Time" ;; b <- getitem "Optimized Parallel Time" ;;
  setitem "Optimized Relative" (truediv a b).

(** Lines 44-56. *)
Definition plot3 : M unit :=
  plt_figure 12 6 ;;
  n <- len_df ;; h <- getitem "Sequential Relative" ;;
  draw (Bar (sub_scalar (arange n) lit_0_2) h lit_0_2 "Sequential" "center") ;;
  n <- len_df ;; h <- getitem "Parallel Relative" ;;
  draw (Bar (arange n) h lit_0_2 "Parallel" "center") ;;
  n <- len_df ;; h <- getitem "Optimized Relative" ;;
  draw (Bar (add_scalar (arange n) lit_0_2) h lit_0_2 "Optimized Parallel" "center") ;;
  draw (XLabel "Input Size") ;;
  draw (YLabel "Relative Performance") ;;
  draw (Title "Relative Performance Comparison") ;;
  n <- len_df ;; l <- getitem "Input Size" ;;
  draw (XTicks (arange n) l) ;;
  draw Legend ;;
  draw (Grid true) ;;
  draw TightLayout ;;
  plt_savefig chart3_png 300 ;;
  plt_show.

Definition script : M unit :=
  read_csv input_csv ;;
  plot1 ;;
  plot2 ;;
  derive_columns ;;
  plot3.

(** A fresh interpreter started in working directory [dir]. *)
Definition start (dir : gmap string file) : state :=
  mkState None (mkFigure None []) dir [].

Definition run (dir : gmap string file) : outcome unit := script (start dir).

(** ** Specification vocabulary *)

(** First position of a name in the header. *)
Fixpoint index_of (name : string) (header : list string) : option nat :=
  match header with
  | [] => None
  | h :: rest => if String.eqb h name then Some 0%nat else S <$> index_of name rest
  end.

(** Every column has one entry per index position. *)
Definition frame_ok (d : DataFrame) : Prop :=
  forall name v, In (name, v) (columns d) -> series_len v = nrows d.

(** The frame after lines 40-42, given the three time columns. *)
Definition derived (d : DataFrame) (sq pr op : series) : DataFrame :=
  mkDataFrame (nrows d)
    (setcol "Optimized Relative" (truediv sq op)
       (setcol "Parallel Relative" (truediv sq pr)
          (setcol "Sequential Relative" (Int64 (repeat 1 (nrows d))) (columns d)))).

(** The three figures as the script draws them. *)
Definition figure1 (x sq pr op : series) : figure :=
  mkFigure (Some (12, 6))
    [Line2D x sq "o" "Sequential"; Line2D x pr "s" "Parallel";
     Line2D x op "^" "Optimized Parallel";
     XScale "log"; YScale "log"; XLabel "Input Size";
     YLabel "Execution Time (seconds)"; Title "Execution Time Comparison";
     Legend; Grid true; TightLayout].

Definition figure2 (x ps os : series) : figure :=
  mkFigure (Some (12, 6))
    [Line2D x ps "o" "Parallel Speedup"; Line2D x os "s" "Optimized Speedup";
     AxHLine 1 "r" "--" "Baseline (Sequential)";
     XScale "log"; XLabel "Input Size"; YLabel "Speedup";
     Title "Speedup Comparison"; Legend; Grid true; TightLayout].

Definition figure3 (n : nat) (x sr pr or : series) : figure :=
  mkFigure (Some (12, 6))
    [Bar (sub_scalar (arange n) lit_0_2) sr lit_0_2 "Sequential" "center";
     Bar (arange n) pr lit_0_2 "Parallel" "center";
     Bar (add_scalar (arange n) lit_0_2) or lit_0_2 "Optimized Parallel" "center";
     XLabel "Input Size"; YLabel "Relative Performance";
     Title "Relative Performance Comparison";
     XTicks (arange n) x; Legend; Grid true; TightLayout].

(** The events of one chart: open the figure, [draws] drawing calls, write
    the file, show. *)
Definition chart_events (png : string) (draws : nat) : list event :=
  [EvFigure] ++ repeat EvDraw draws ++ [EvSave png; EvShow].

Definition derive_events : list event :=
  [EvSetitem "Sequential Relative"; EvSetitem "Parallel Relative";
   EvSetitem "Optimized Relative"].

(** The order of all effectful calls of a complete run. *)
Definition schedule : list event :=
  [EvRead input_csv] ++ chart_events chart1_png 11 ++ chart_events chart2_png 10
    ++ derive_events ++ chart_events chart3_png 10.

(** The files written by a trace, in order. *)
Fixpoint saves (t : list event) : list string :=
  match t with
  | [] => []
  | EvSave p :: rest => p :: saves rest
  | _ :: rest => saves rest
  end.

Definition num_is_zero (v : num) : bool :=
  match v with
  | NInt z => Z.eqb z 0
  | NFloat f => is_zero f
  end.

(** The names of the derived columns. *)
Definition is_derived (name : string) : bool :=
  String.eqb name "Sequential Relative" || String.eqb name "Parallel Relative"
  || String.eqb name "Optimized Relative".

(** The state in which a complete run ends. *)
Definition completed (dir : gmap string file) (d : DataFrame)
    (x sq pr op ps os : series) : state :=
  let f1 := figure1 x sq pr op in
  let f2 := figure2 x ps os in
  let f3 := figure3 (nrows d) x (Int64 (repeat 1 (nrows d)))
              (truediv sq pr) (truediv sq op) in
  mkState (Some (derived d sq pr op)) f3
    (write_file chart3_png (Png 300 f3)
       (write_file chart2_png (Png 300 f2)
          (write_file chart1_png (Png 300 f1) dir)))
    schedule.

(** The six columns of the report file. *)
Definition report_columns : list string :=
  ["Input Size"; "Sequential Time"; "Parallel Time"; "Optimized Parallel Time";
   "Parallel Speedup"; "Optimized Speedup"].

(** ** Sample inputs *)

(** A report without the speedup columns, holding the row
    (100, 10, 2, 1). *)
Definition times_header : list string :=
  ["Input Size"; "Sequential Time"; "Parallel Time"; "Optimized Parallel Time"].
Definition times_lines : list (list field) :=
  [[IntLit 100; IntLit 10; IntLit 2; IntLit 1]].
Definition times_frame : DataFrame :=
  mkDataFrame 1
    [("Input Size", Int64 [100]); ("Sequential Time", Int64 [10]);
     ("Parallel Time", Int64 [2]); ("Optimized Parallel Time", Int64 [1])].
Definition times_dir : gmap string file :=
  {[ input_csv := Csv times_header times_lines ]}.

(** A complete report with the same row. *)
Definition report_lines : list (list field) :=
  [[IntLit 100; IntLit 10; IntLit 2; IntLit 1; FloatLit lit_5_0; FloatLit lit_10_0]].
Definition report_dir : gmap string file :=
  {[ input_csv := Csv report_columns report_lines ]}.

(** The same report next to a stale chart and an unrelated file. *)
Definition report_dir_stale : gmap string file :=
  <[ chart1_png := Other ]> (<[ "notes.txt" := Other ]> report_dir).

(** A report whose parallel times are zero: integer 0 and float -0.0. *)
Definition zero_lines : list (list field) :=
  [[IntLit 100; IntLit 10; IntLit 0; FloatLit (S754_zero true)]].
Definition zero_frame : DataFrame :=
  mkDataFrame 1
    [("Input Size", Int64 [100]); ("Sequential Time", Int64 [10]);
     ("Parallel Time", Int64 [0]);
     ("Optimized Parallel Time", Float64 [S754_zero true])].

(** A report without the optimized column. *)
Definition short_header : list string :=
  ["Input Size"; "Sequential Time"; "Parallel Time"].
Definition short_dir : gmap string file :=
  {[ input_csv := Csv short_header [[IntLit 100; IntLit 10; IntLit 2]] ]}.

(** The frame read from the complete sample report. *)
Definition report_frame : DataFrame :=
  mkDataFrame 1
    [("Input Size", Int64 [100]); ("Sequential Time", Int64 [10]);
     ("Parallel Time", Int64 [2]); ("Optimized Parallel Time", Int64 [1]);
     ("Parallel Speedup", Float64 [lit_5_0]);
     ("Optimized Speedup", Float64 [lit_10_0])].

(** An interpreter in which [df] is bound to [d] and nothing else happened. *)
Definition loaded (d : DataFrame) : state :=
  mkState (Some d) (mkFigure None []) ∅ [].

(** ** Properties of computations *)

(** [emits m evs]: started anywhere, [m] appends exactly [evs] to the trace
    when it completes, and a prefix of [evs] when it raises. *)
Definition emits {A} (m : M A) (evs : list event) : Prop :=
  forall s,
    match m s with
    | Ok _ s' => trace s' = (trace s ++ evs)%list
    | Raised _ s' => exists p, p `prefix_of` evs /\ trace s' = (trace s ++ p)%list
    end.

(** Two interpreter states that differ at most in the working directory. *)
Definition agree (s1 s2 : state) : Prop :=
  df s1 = df s2 /\ gcf s1 = gcf s2 /\ trace s1 = trace s2.

(** Two outcomes of the same kind, with the same value or exception, whose
    states agree. *)
Definition same_result {A} (o1 o2 : outcome A) : Prop :=
  match o1, o2 with
  | Ok a1 s1, Ok a2 s2 => a1 = a2 /\ agree s1 s2
  | Raised e1 s1, Raised e2 s2 => e1 = e2 /\ agree s1 s2
  | _, _ => False
  end.

(** [blind m]: [m] does not look at the working directory. *)
Definition blind {A} (m : M A) : Prop :=
  forall s1 s2, agree s1 s2 -> same_result (m s1) (m s2).

(** The table invariant relative to the frame [d0] obtained from the file:
    [df] is bound, has as many rows as [d0], every column has one entry per
    row, and every column other than the derived ones is the column of
    [d0]. *)
Definition table_inv (d0 : DataFrame) (s : state) : Prop :=
  exists d,
    df s = Some d /\ nrows d = nrows d0 /\ frame_ok d /\
    forall name, is_derived name = false ->
                 getcol name (columns d) = getcol name (columns d0).

(** [keeps I m Q]: [m] preserves [I] however it ends, and a value it returns
    satisfies [Q]. *)
Definition keeps {A} (I : state -> Prop) (m : M A) (Q : A -> Prop) : Prop :=
  forall s, I s ->
    match m s with
    | Ok a s' => I s' /\ Q a
    | Raised _ s' => I s'
    end.

(** ** Outcome of a run, read off the script *)

(** The columns the script looks up before it writes chart 1 (lines 10-12)
    and before it writes chart 2 (lines 26-27), in lookup order. *)
Definition time_columns : list string :=
  ["Input Size"; "Sequential Time"; "Parallel Time"; "Optimized Parallel Time"].
Definition speedup_columns : list string :=
  ["Parallel Speedup"; "Optimized Speedup"].

Definition missing (cols : list (string * series)) (k : string) : bool :=
  match getcol k cols with
  | Some _ => false
  | None => true
  end.

(** The first column, in lookup order, that the table lacks. *)
Definition first_missing (cols : list (string * series)) : option string :=
  find (missing cols) report_columns.

(** The table the reader yields for the input file, if any. *)
Definition loaded_frame (dir : gmap string file) : option DataFrame :=
  match dir !! input_csv with
  | Some (Csv header lines) => parse header lines
  | _ => None
  end.

(** The exception the input calls for: the reader's, or [KeyError] for the
    first report column the table lacks ([None]: the input lacks nothing). *)
Definition expected_exn (dir : gmap string file) : option exn :=
  match dir !! input_csv with
  | None => Some (FileNotFoundError input_csv)
  | Some (Csv header lines) =>
      match parse header lines with
      | None => Some ParserError
      | Some d => KeyError <$> first_missing (columns d)
      end
  | Some _ => Some ParserError
  end.



(** An artist whose data arrays all have [n] entries. *)
Definition artist_shaped (n : nat) (a : artist) : bool :=
  match a with
  | Line2D x y _ _ => Nat.eqb (series_len x) n && Nat.eqb (series_len y) n
  | Bar x h _ _ _ => Nat.eqb (series_len x) n && Nat.eqb (series_len h) n
  | XTicks t l => Nat.eqb (series_len t) n && Nat.eqb (series_len l) n
  | _ => true
  end.

Definition shaped (n : nat) (fig : figure) : bool :=
  forallb (artist_shaped n) (artists fig).

(** The three chart files of a directory. *)
Definition charts (dir : gmap string file) : list (option file) :=
  map (fun p => dir !! p) [chart1_png; chart2_png; chart3_png].

(** The complete sample report with an additional column, and the table
    read from it. *)
Definition wide_dir : gmap string file :=
  {[ input_csv :=
       Csv (report_columns ++ ["Threads"])
         [[IntLit 100; IntLit 10; IntLit 2; IntLit 1; FloatLit lit_5_0;
           FloatLit lit_10_0; IntLit 8]] ]}.
Definition wide_frame : DataFrame :=
  mkDataFrame 1 (columns report_frame ++ [("Threads", Int64 [8])]).

(** A report that already carries a column named like a derived one. *)
Definition stale_header : list string :=
  ["Input Size"; "Parallel Relative"; "Sequential Time"; "Parallel Time";
   "Optimized Parallel Time"; "Parallel Speedup"; "Optimized Speedup"].
Definition stale_dir : gmap string file :=
  {[ input_csv :=
       Csv stale_header
         [[IntLit 100; IntLit 7; IntLit 10; IntLit 2; IntLit 1;
           FloatLit lit_5_0; FloatLit lit_10_0]] ]}.

(** A report whose only data line has no parallel time and ends before the
    optimized time. *)
Definition gappy_lines : list (list field) := [[IntLit 100; IntLit 10; Empty]].
Definition gappy_frame : DataFrame :=
  mkDataFrame 1
    [("Input Size", Int64 [100]); ("Sequential Time", Int64 [10]);
     ("Parallel Time", Float64 [nan]);
     ("Optimized Parallel Time", Float64 [nan])].

(** [renders png draws s s']: from [s], one chart has been opened, drawn with
    [draws] drawing calls, written and shown, ending in [s']: the finished
    figure is in the directory under [png] at 300 DPI, and the directory is
    otherwise as it was in [s]. *)
Definition renders (png : string) (draws : nat) (s s' : state) : Prop :=
  trace s' = (trace s ++ chart_events png draws)%list /\
  length (artists (gcf s')) = draws /\
  cwd s' = write_file png (Png 300 (gcf s')) (cwd s).

(** * Verification *)

Arguments write_file : simpl never.

(** ** Columns *)

Lemma getcol_setcol (k k' : string) (v : series) cols :
  getcol k (setcol k' v cols) = if String.eqb k' k then Some v else getcol k cols.
Proof.
  induction cols as [|[c x] rest IH]; simpl.
  - destruct (String.eqb k' k); reflexivity.
  - destruct (String.eqb_spec c k') as [->|Hne]; simpl.
    + destruct (String.eqb k' k); reflexivity.
    + destruct (String.eqb_spec c k) as [->|Hne2].
      * destruct (String.eqb_spec k' k) as [->|_]; [congruence | reflexivity].
      * exact IH.
Qed.

Lemma getcol_Some_In name cols v : getcol name cols = Some v -> In (name, v) cols.
Proof.
  induction cols as [|[c x] rest IH]; simpl; [discriminate|].
  destruct (String.eqb_spec c name) as [->|_].
  - intros [= ->]. now left.
  - intros H. right. now apply IH.
Qed.

Lemma index_of_None name header : ~ In name header -> index_of name header = None.
Proof.
  induction header as [|h rest IH]; simpl; [reflexivity|].
  intros Hn. destruct (String.eqb_spec h name) as [->|_].
  - exfalso. apply Hn. now left.
  - rewrite IH; [reflexivity|]. intros Hin. apply Hn. now right.
Qed.

Lemma index_of_None_inv name header : index_of name header = None -> ~ In name header.
Proof.
  induction header as [|h rest IH]; simpl; [tauto|].
  destruct (String.eqb_spec h name) as [->|Hne]; [discriminate|].
  destruct (index_of name rest); [discriminate|].
  intros _ [Heq|Hin]; [congruence | now apply IH].
Qed.

Lemma getcol_build_columns name header lines j :
  getcol name (build_columns j header lines) =
  (fun i => infer (column_cells (j + i) lines)) <$> index_of name header.
Proof.
  revert j. induction header as [|h rest IH]; intros j; simpl; [reflexivity|].
  destruct (String.eqb h name).
  - simpl. now rewrite Nat.add_0_r.
  - rewrite IH. destruct (index_of name rest) as [i|]; simpl; [|reflexivity].
    now rewrite Nat.add_succ_r.
Qed.

Lemma all_int_length cells zs : all_int cells = Some zs -> length zs = length cells.
Proof.
  revert zs. induction cells as [|c rest IH]; simpl; intros zs.
  - now intros [= <-].
  - destruct c; try discriminate.
    destruct (all_int rest) as [zs'|]; [|discriminate].
    intros [= <-]. simpl. f_equal. now apply IH.
Qed.

Lemma series_len_infer cells : series_len (infer cells) = length cells.
Proof.
  unfold infer. destruct (all_int cells) as [zs|] eqn:E; simpl.
  - now apply all_int_length.
  - now rewrite length_map.
Qed.

Lemma column_cells_length j lines : length (column_cells j lines) = length lines.
Proof. unfold column_cells. now rewrite length_map. Qed.

Lemma build_columns_len j header lines name v :
  In (name, v) (build_columns j header lines) -> series_len v = length lines.
Proof.
  revert j. induction header as [|h rest IH]; intros j; simpl; [tauto|].
  intros [[= <- <-]|Hin].
  - now rewrite series_len_infer, column_cells_length.
  - now apply (IH (S j)).
Qed.

Lemma parse_Some header lines d :
  parse header lines = Some d ->
  d = mkDataFrame (length lines)
        (build_columns (leading_cols header lines) header lines).
Proof.
  unfold parse. destruct header as [|h rest]; [discriminate|].
  destruct (existsb _ lines); [discriminate|]. now intros [= <-].
Qed.

Lemma parse_frame_ok header lines d : parse header lines = Some d -> frame_ok d.
Proof.
  intros ->%parse_Some name v Hin. simpl in *. now apply build_columns_len in Hin.
Qed.

Lemma parse_nrows header lines d : parse header lines = Some d -> nrows d = length lines.
Proof. now intros ->%parse_Some. Qed.

Lemma In_setcol name v cols k x :
  In (k, x) (setcol name v cols) -> In (k, x) cols \/ (k = name /\ x = v).
Proof.
  induction cols as [|[c y] rest IH]; simpl.
  - intros [[= <- <-]|[]]. now right.
  - destruct (String.eqb_spec c name) as [->|_]; simpl.
    + intros [[= <- <-]|Hin]; [now right | left; now right].
    + intros [Heq|Hin]; [left; now left|].
      destruct (IH Hin) as [?|?]; [left; now right | now right].
Qed.

(** ** Series *)

Lemma repeat_lookup {T} (x : T) n i : (i < n)%nat -> repeat x n !! i = Some x.
Proof.
  revert i. induction n as [|n IH]; intros i Hi; [lia|].
  destruct i as [|i]; simpl; [reflexivity|]. apply IH. lia.
Qed.

Lemma astype_float_lookup s i : astype_float s !! i = as_float <$> series_at s i.
Proof.
  destruct s as [l|l]; simpl.
  - rewrite list_lookup_fmap. now destruct (l !! i).
  - now destruct (l !! i).
Qed.

Lemma series_at_Some_lt s i v : series_at s i = Some v -> (i < series_len s)%nat.
Proof.
  destruct s as [l|l]; simpl; destruct (l !! i) eqn:E; try discriminate;
    intros _; now apply lookup_lt_Some in E.
Qed.

Lemma series_at_lt s i : (i < series_len s)%nat -> exists v, series_at s i = Some v.
Proof.
  destruct s as [l|l]; simpl; intros [x Hx]%lookup_lt_is_Some; rewrite Hx;
    simpl; eauto.
Qed.

Lemma series_at_truediv a b i x y :
  series_at a i = Some x -> series_at b i = Some y ->
  series_at (truediv a b) i = Some (NFloat (div (as_float x) (as_float y))).
Proof.
  intros Ha Hb. unfold truediv. simpl.
  rewrite lookup_zip_with, !astype_float_lookup, Ha, Hb. reflexivity.
Qed.

(** ** Symbolic execution *)

Section Exec.
Context {A B : Type} (m : M A) (k : A -> M B) (s : state).

Lemma bind_Ok a s' : m s = Ok a s' -> bind m k s = k a s'.
Proof. unfold bind. intros ->. reflexivity. Qed.

Lemma bind_Raised e s' : m s = Raised e s' -> bind m k s = Raised e s'.
Proof. unfold bind. intros ->. reflexivity. Qed.
End Exec.

Lemma getitem_Some name s d v :
  df s = Some d -> getcol name (columns d) = Some v -> getitem name s = Ok v s.
Proof. unfold getitem. intros -> ->. reflexivity. Qed.

Lemma getitem_None name s d :
  df s = Some d -> getcol name (columns d) = None ->
  getitem name s = Raised (KeyError name) s.
Proof. unfold getitem. intros -> ->. reflexivity. Qed.

Lemma len_df_Some s d : df s = Some d -> len_df s = Ok (nrows d) s.
Proof. unfold len_df. intros ->. reflexivity. Qed.

Lemma setitem_Some name v s d :
  df s = Some d ->
  setitem name v s =
    Ok tt (mkState (Some (mkDataFrame (nrows d) (setcol name v (columns d))))
             (gcf s) (cwd s) (trace s ++ [EvSetitem name])).
Proof. unfold setitem. intros ->. reflexivity. Qed.

Lemma setitem_scalar_Some name z s d :
  df s = Some d ->
  setitem_scalar name z s =
    Ok tt (mkState (Some (mkDataFrame (nrows d)
                            (setcol name (Int64 (repeat z (nrows d))) (columns d))))
             (gcf s) (cwd s) (trace s ++ [EvSetitem name])).
Proof. unfold setitem_scalar, setitem. intros ->. reflexivity. Qed.

Lemma read_csv_Some path s header lines d :
  cwd s !! path = Some (Csv header lines) -> parse header lines = Some d ->
  read_csv path s = Ok tt (mkState (Some d) (gcf s) (cwd s) (trace s ++ [EvRead path])).
Proof. unfold read_csv. intros -> ->. reflexivity. Qed.

Ltac lookup_col :=
  cbn [columns derived]; rewrite ?getcol_setcol; simpl; first [eassumption | reflexivity].

Ltac prim :=
  first
    [ eapply getitem_Some; [reflexivity | lookup_col]
    | eapply len_df_Some; reflexivity
    | eapply setitem_Some; reflexivity
    | eapply setitem_scalar_Some; reflexivity
    | reflexivity ].

Ltac tidy :=
  cbv beta delta [log]; cbn [df gcf cwd trace figsize artists nrows columns app].

(** One statement that completes. *)
Ltac exec :=
  lazymatch goal with
  | |- context [bind ?m ?k ?s] => erewrite (bind_Ok m k s) by prim; tidy
  end.

(** A column lookup that raises. *)
Ltac exec_raise :=
  lazymatch goal with
  | |- context [bind ?m ?k ?s] =>
      erewrite (bind_Raised m k s) by (eapply getitem_None; [reflexivity | lookup_col])
  end.

Ltac close_block :=
  first [ erewrite setitem_Some by reflexivity | unfold plt_show ];
  tidy; unfold chart_events, derive_events; simpl repeat;
  rewrite <- ?app_assoc; reflexivity.

Lemma plot1_ok (s : state) (d : DataFrame) (x sq pr op : series) :
  df s = Some d ->
  getcol "Input Size" (columns d) = Some x ->
  getcol "Sequential Time" (columns d) = Some sq ->
  getcol "Parallel Time" (columns d) = Some pr ->
  getcol "Optimized Parallel Time" (columns d) = Some op ->
  plot1 s =
    Ok tt (mkState (Some d) (figure1 x sq pr op)
             (write_file chart1_png (Png 300 (figure1 x sq pr op)) (cwd s))
             (trace s ++ chart_events chart1_png 11)).
Proof.
  intros Hd Hx Hs Hp Ho. destruct s as [o g c t]. simpl in Hd. subst o.
  unfold plot1. repeat exec. close_block.
Qed.

Lemma plot2_ok (s : state) (d : DataFrame) (x ps os : series) :
  df s = Some d ->
  getcol "Input Size" (columns d) = Some x ->
  getcol "Parallel Speedup" (columns d) = Some ps ->
  getcol "Optimized Speedup" (columns d) = Some os ->
  plot2 s =
    Ok tt (mkState (Some d) (figure2 x ps os)
             (write_file chart2_png (Png 300 (figure2 x ps os)) (cwd s))
             (trace s ++ chart_events chart2_png 10)).
Proof.
  intros Hd Hx Hs Ho. destruct s as [o g c t]. simpl in Hd. subst o.
  unfold plot2. repeat exec. close_block.
Qed.

Lemma derive_columns_ok (s : state) (d : DataFrame) (sq pr op : series) :
  df s = Some d ->
  getcol "Sequential Time" (columns d) = Some sq ->
  getcol "Parallel Time" (columns d) = Some pr ->
  getcol "Optimized Parallel Time" (columns d) = Some op ->
  derive_columns s =
    Ok tt (mkState (Some (derived d sq pr op)) (gcf s) (cwd s)
             (trace s ++ derive_events)).
Proof.
  intros Hd Hs Hp Ho. destruct s as [o g c t]. simpl in Hd. subst o.
  unfold derive_columns. repeat exec. close_block.
Qed.

Lemma plot3_ok (s : state) (d : DataFrame) (x sq pr op : series) :
  df s = Some (derived d sq pr op) ->
  getcol "Input Size" (columns d) = Some x ->
  let fig := figure3 (nrows d) x (Int64 (repeat 1 (nrows d)))
               (truediv sq pr) (truediv sq op) in
  plot3 s =
    Ok tt (mkState (Some (derived d sq pr op)) fig
             (write_file chart3_png (Png 300 fig) (cwd s))
             (trace s ++ chart_events chart3_png 10)).
Proof.
  intros Hd Hx fig. destruct s as [o g c t]. simpl in Hd. subst o fig.
  unfold plot3. repeat exec. close_block.
Qed.

Lemma saves_app t1 t2 : saves (t1 ++ t2) = (saves t1 ++ saves t2)%list.
Proof.
  induction t1 as [|e t1 IH]; simpl; [reflexivity|].
  destruct e; simpl; now rewrite ?IH.
Qed.

Lemma run_ok dir header lines d x sq pr op ps os :
  dir !! input_csv = Some (Csv header lines) ->
  parse header lines = Some d ->
  getcol "Input Size" (columns d) = Some x ->
  getcol "Sequential Time" (columns d) = Some sq ->
  getcol "Parallel Time" (columns d) = Some pr ->
  getcol "Optimized Parallel Time" (columns d) = Some op ->
  getcol "Parallel Speedup" (columns d) = Some ps ->
  getcol "Optimized Speedup" (columns d) = Some os ->
  run dir = Ok tt (completed dir d x sq pr op ps os).
Proof.
  intros Hf Hparse Hx Hs Hp Ho Hps Hos. unfold run, script, start.
  erewrite bind_Ok by (eapply read_csv_Some; [exact Hf | exact Hparse]). tidy.
  erewrite bind_Ok by (eapply plot1_ok; [reflexivity | eassumption ..]). tidy.
  erewrite bind_Ok by (eapply plot2_ok; [reflexivity | eassumption ..]). tidy.
  erewrite bind_Ok by (eapply derive_columns_ok; [reflexivity | eassumption ..]). tidy.
  erewrite plot3_ok by (first [reflexivity | eassumption]). tidy.
  unfold completed, schedule. rewrite <- ?app_assoc. reflexivity.
Qed.

(** pd.read_csv either binds [df] to the parsed frame or raises, leaving
    the state as it was. *)
Lemma read_csv_cases path s :
  (exists header lines d,
      cwd s !! path = Some (Csv header lines) /\ parse header lines = Some d /\
      read_csv path s =
        Ok tt (mkState (Some d) (gcf s) (cwd s) (trace s ++ [EvRead path])))
  \/ (exists e, read_csv path s = Raised e s /\
                 (e = FileNotFoundError path \/ e = ParserError)).
Proof.
  unfold read_csv.
  destruct (cwd s !! path) as [[header lines| |]|] eqn:Hf; eauto.
  destruct (parse header lines) as [d|] eqn:Hp; eauto 10.
Qed.

Ltac stopped :=
  right; eexists _, _; split;
  [ unfold plot1, plot2; repeat exec; exec_raise; reflexivity
  | cbn [df cwd trace]; repeat split; try eassumption;
    rewrite !saves_app; simpl; now rewrite ?app_nil_r ].

(** Chart 1 either completes or stops at the first missing column, before
    anything is written. *)
Lemma plot1_cases s d :
  df s = Some d ->
  (exists x sq pr op,
      getcol "Input Size" (columns d) = Some x /\
      getcol "Sequential Time" (columns d) = Some sq /\
      getcol "Parallel Time" (columns d) = Some pr /\
      getcol "Optimized Parallel Time" (columns d) = Some op /\
      plot1 s =
        Ok tt (mkState (Some d) (figure1 x sq pr op)
                 (write_file chart1_png (Png 300 (figure1 x sq pr op)) (cwd s))
                 (trace s ++ chart_events chart1_png 11)))
  \/ (exists k s',
         plot1 s = Raised (KeyError k) s' /\ getcol k (columns d) = None /\
         df s' = Some d /\ cwd s' = cwd s /\ saves (trace s') = saves (trace s)).
Proof.
  intros Hd. destruct s as [o g c t]. simpl in Hd. subst o.
  destruct (getcol "Input Size" (columns d)) as [x|] eqn:Hx; [|stopped].
  destruct (getcol "Sequential Time" (columns d)) as [sq|] eqn:Hs; [|stopped].
  destruct (getcol "Parallel Time" (columns d)) as [pr|] eqn:Hp; [|stopped].
  destruct (getcol "Optimized Parallel Time" (columns d)) as [op|] eqn:Ho; [|stopped].
  left. exists x, sq, pr, op. repeat split; try assumption.
  now apply plot1_ok.
Qed.

(** Chart 2 likewise; a stop here leaves chart 1's file in place. *)
Lemma plot2_cases s d x :
  df s = Some d ->
  getcol "Input Size" (columns d) = Some x ->
  (exists ps os,
      getcol "Parallel Speedup" (columns d) = Some ps /\
      getcol "Optimized Speedup" (columns d) = Some os /\
      plot2 s =
        Ok tt (mkState (Some d) (figure2 x ps os)
                 (write_file chart2_png (Png 300 (figure2 x ps os)) (cwd s))
                 (trace s ++ chart_events chart2_png 10)))
  \/ (exists k s',
         plot2 s = Raised (KeyError k) s' /\ getcol k (columns d) = None /\
         df s' = Some d /\ cwd s' = cwd s /\ saves (trace s') = saves (trace s)).
Proof.
  intros Hd Hx. destruct s as [o g c t]. simpl in Hd. subst o.
  destruct (getcol "Parallel Speedup" (columns d)) as [ps|] eqn:Hps; [|stopped].
  destruct (getcol "Optimized Speedup" (columns d)) as [os|] eqn:Hos; [|stopped].
  left. exists ps, os. repeat split; try assumption.
  now apply plot2_ok.
Qed.

(** A run that completes read a parsable file holding the six columns, and
    ends in the state [completed]. *)
Lemma run_inv dir s' :
  run dir = Ok tt s' ->
  exists header lines d x sq pr op ps os,
    dir !! input_csv = Some (Csv header lines) /\
    parse header lines = Some d /\
    getcol "Input Size" (columns d) = Some x /\
    getcol "Sequential Time" (columns d) = Some sq /\
    getcol "Parallel Time" (columns d) = Some pr /\
    getcol "Optimized Parallel Time" (columns d) = Some op /\
    getcol "Parallel Speedup" (columns d) = Some ps /\
    getcol "Optimized Speedup" (columns d) = Some os /\
    s' = completed dir d x sq pr op ps os.
Proof.
  intros Hrun. pose proof Hrun as Hrun0.
  destruct (read_csv_cases input_csv (start dir))
    as [(header & lines & d & Hf & Hparse & Hread)|(e & Hread & _)].
  2:{ unfold run, script in Hrun. rewrite (bind_Raised _ _ _ _ _ Hread) in Hrun.
      discriminate. }
  simpl in Hf, Hread.
  unfold run, script in Hrun. rewrite (bind_Ok _ _ _ _ _ Hread) in Hrun.
  match type of Hrun with context [bind plot1 _ ?s] =>
    destruct (plot1_cases s d eq_refl)
      as [(x & sq & pr & op & Hx & Hs & Hp & Ho & H1)|(k & s1 & H1 & _)]
  end.
  2:{ rewrite (bind_Raised _ _ _ _ _ H1) in Hrun. discriminate. }
  rewrite (bind_Ok _ _ _ _ _ H1) in Hrun.
  match type of Hrun with context [bind plot2 _ ?s] =>
    destruct (plot2_cases s d x eq_refl Hx)
      as [(ps & os & Hps & Hos & H2)|(k & s2 & H2 & _)]
  end.
  2:{ rewrite (bind_Raised _ _ _ _ _ H2) in Hrun. discriminate. }
  exists header, lines, d, x, sq, pr, op, ps, os.
  repeat split; try assumption.
  rewrite (run_ok dir header lines d x sq pr op ps os) in Hrun0 by assumption.
  now injection Hrun0.
Qed.

(** ** The derived columns *)

Lemma frame_ok_len d name v :
  frame_ok d -> getcol name (columns d) = Some v -> series_len v = nrows d.
Proof. intros Hok Hget. apply (Hok name). now apply getcol_Some_In. Qed.

Lemma getcol_derived d sq pr op name :
  getcol name (columns (derived d sq pr op)) =
  if String.eqb "Optimized Relative" name then Some (truediv sq op)
  else if String.eqb "Parallel Relative" name then Some (truediv sq pr)
  else if String.eqb "Sequential Relative" name
       then Some (Int64 (repeat 1 (nrows d)))
  else getcol name (columns d).
Proof. unfold derived. cbn [columns]. now rewrite !getcol_setcol. Qed.

Lemma getcol_derived_other d sq pr op name :
  is_derived name = false ->
  getcol name (columns (derived d sq pr op)) = getcol name (columns d).
Proof.
  unfold is_derived. rewrite getcol_derived, !orb_false_iff.
  intros [[H1 H2] H3].
  rewrite (String.eqb_sym _ name), H3, (String.eqb_sym _ name), H2,
    (String.eqb_sym _ name), H1.
  reflexivity.
Qed.

(** Row [i] of the derived frame, from row [i] of the three time columns. *)
Lemma derived_cells d sq pr op i a b c :
  frame_ok d ->
  getcol "Sequential Time" (columns d) = Some sq ->
  series_at sq i = Some a -> series_at pr i = Some b -> series_at op i = Some c ->
  cell_at (derived d sq pr op) "Sequential Relative" i = Some (NInt 1) /\
  cell_at (derived d sq pr op) "Parallel Relative" i
    = Some (NFloat (div (as_float a) (as_float b))) /\
  cell_at (derived d sq pr op) "Optimized Relative" i
    = Some (NFloat (div (as_float a) (as_float c))).
Proof.
  intros Hok Hsq Ha Hb Hc. unfold cell_at. rewrite !getcol_derived. simpl.
  repeat split.
  - rewrite repeat_lookup; [reflexivity|].
    rewrite <- (frame_ok_len d _ sq Hok Hsq). now apply series_at_Some_lt in Ha.
  - change (series_at (truediv sq pr) i
            = Some (NFloat (div (as_float a) (as_float b)))).
    now apply series_at_truediv.
  - change (series_at (truediv sq op) i
            = Some (NFloat (div (as_float a) (as_float c)))).
    now apply series_at_truediv.
Qed.

(** C1.  For a loaded table holding the three time columns, lines 40-42
    complete, and in every row [i] of the table [Sequential Relative] is the
    integer 1, [Parallel Relative] is [Sequential Time / Parallel Time] and
    [Optimized Relative] is [Sequential Time / Optimized Parallel Time], the
    quotients being binary64 divisions of the row's own entries. *)
Theorem derived_columns_per_row (s : state) header lines d sq pr op :
  parse header lines = Some d ->
  df s = Some d ->
  getcol "Sequential Time" (columns d) = Some sq ->
  getcol "Parallel Time" (columns d) = Some pr ->
  getcol "Optimized Parallel Time" (columns d) = Some op ->
  exists s' d',
    derive_columns s = Ok tt s' /\ df s' = Some d' /\
    forall i, (i < nrows d)%nat ->
      exists a b c,
        cell_at d "Sequential Time" i = Some a /\
        cell_at d "Parallel Time" i = Some b /\
        cell_at d "Optimized Parallel Time" i = Some c /\
        cell_at d' "Sequential Relative" i = Some (NInt 1) /\
        cell_at d' "Parallel Relative" i
          = Some (NFloat (div (as_float a) (as_float b))) /\
        cell_at d' "Optimized Relative" i
          = Some (NFloat (div (as_float a) (as_float c))).
Proof.
  intros Hparse Hd Hsq Hpr Hop.
  pose proof (parse_frame_ok _ _ _ Hparse) as Hok.
  eexists _, (derived d sq pr op).
  split; [apply (derive_columns_ok s d sq pr op); assumption|].
  split; [reflexivity|]. intros i Hi.
  destruct (series_at_lt sq i) as [a Ha]; [now rewrite (frame_ok_len d _ _ Hok Hsq)|].
  destruct (series_at_lt pr i) as [b Hb]; [now rewrite (frame_ok_len d _ _ Hok Hpr)|].
  destruct (series_at_lt op i) as [c Hc]; [now rewrite (frame_ok_len d _ _ Hok Hop)|].
  exists a, b, c. unfold cell_at at 1 2 3. rewrite Hsq, Hpr, Hop.
  repeat split; try assumption; now apply (derived_cells d sq pr op i a b c).
Qed.

Lemma derived_columns_per_row_witness :
  exists s' d',
    derive_columns (loaded times_frame) = Ok tt s' /\ df s' = Some d' /\
    forall i, (i < nrows times_frame)%nat ->
      exists a b c,
        cell_at times_frame "Sequential Time" i = Some a /\
        cell_at times_frame "Parallel Time" i = Some b /\
        cell_at times_frame "Optimized Parallel Time" i = Some c /\
        cell_at d' "Sequential Relative" i = Some (NInt 1) /\
        cell_at d' "Parallel Relative" i
          = Some (NFloat (div (as_float a) (as_float b))) /\
        cell_at d' "Optimized Relative" i
          = Some (NFloat (div (as_float a) (as_float c))).
Proof.
  apply (derived_columns_per_row (loaded times_frame) times_header times_lines
           times_frame (Int64 [10]) (Int64 [2]) (Int64 [1])); reflexivity.
Defined.

(** ** Division by zero *)

Lemma as_float_zero v : num_is_zero v = true -> is_zero (as_float v) = true.
Proof.
  destruct v as [z|f]; simpl; [|trivial].
  intros ->%Z.eqb_eq. reflexivity.
Qed.

Lemma div_by_zero_not_finite x y : is_zero y = true -> is_finite (div x y) = false.
Proof. destruct y; try discriminate. intros _. now destruct x. Qed.

(** C5.  Lines 41-42 carry no guard against a zero divisor: on a loaded
    table with the three time columns the derived-column computation
    completes, raising nothing, and in a row whose [Parallel Time]
    (respectively [Optimized Parallel Time]) is zero the [Parallel Relative]
    (respectively [Optimized Relative]) entry is an infinity or NaN. *)
Theorem zero_divisor_gives_non_finite (s : state) header lines d sq pr op i b c :
  parse header lines = Some d ->
  df s = Some d ->
  getcol "Sequential Time" (columns d) = Some sq ->
  getcol "Parallel Time" (columns d) = Some pr ->
  getcol "Optimized Parallel Time" (columns d) = Some op ->
  series_at pr i = Some b ->
  series_at op i = Some c ->
  exists s' d',
    derive_columns s = Ok tt s' /\ df s' = Some d' /\
    (num_is_zero b = true ->
     exists f, cell_at d' "Parallel Relative" i = Some (NFloat f) /\
               is_finite f = false) /\
    (num_is_zero c = true ->
     exists f, cell_at d' "Optimized Relative" i = Some (NFloat f) /\
               is_finite f = false).
Proof.
  intros Hparse Hd Hsq Hpr Hop Hb Hc.
  pose proof (parse_frame_ok _ _ _ Hparse) as Hok.
  eexists _, (derived d sq pr op).
  split; [apply (derive_columns_ok s d sq pr op); assumption|].
  split; [reflexivity|].
  destruct (series_at_lt sq i) as [a Ha].
  { rewrite (frame_ok_len d _ _ Hok Hsq), <- (frame_ok_len d _ _ Hok Hpr).
    now apply series_at_Some_lt in Hb. }
  destruct (derived_cells d sq pr op i a b c Hok Hsq Ha Hb Hc) as (_ & Hp & Ho).
  split; intros Hz; eexists; (split; [eassumption|]);
    now apply div_by_zero_not_finite, as_float_zero.
Qed.

Lemma zero_divisor_gives_non_finite_witness :
  exists s' d',
    derive_columns (loaded zero_frame) = Ok tt s' /\ df s' = Some d' /\
    (num_is_zero (NInt 0) = true ->
     exists f, cell_at d' "Parallel Relative" 0 = Some (NFloat f) /\
               is_finite f = false) /\
    (num_is_zero (NFloat (S754_zero true)) = true ->
     exists f, cell_at d' "Optimized Relative" 0 = Some (NFloat f) /\
               is_finite f = false).
Proof.
  apply (zero_divisor_gives_non_finite (loaded zero_frame) times_header zero_lines
           zero_frame (Int64 [10]) (Int64 [0]) (Float64 [S754_zero true]) 0%nat);
    reflexivity.
Defined.

(** ** The sample row *)

(** C7.  In a row whose [Sequential Time] is 10, [Parallel Time] 2 and
    [Optimized Parallel Time] 1 (the row with [Input Size] 100 of the
    example), whether the columns were read as int64 or as float64, the
    derived-column computation yields [Parallel Relative] 5.0 and
    [Optimized Relative] 10.0. *)
Theorem sample_row_ratios (s : state) header lines d i :
  parse header lines = Some d ->
  df s = Some d ->
  as_float <$> cell_at d "Sequential Time" i = Some (of_int 10) ->
  as_float <$> cell_at d "Parallel Time" i = Some (of_int 2) ->
  as_float <$> cell_at d "Optimized Parallel Time" i = Some (of_int 1) ->
  exists s' d',
    derive_columns s = Ok tt s' /\ df s' = Some d' /\
    cell_at d' "Parallel Relative" i = Some (NFloat lit_5_0) /\
    cell_at d' "Optimized Relative" i = Some (NFloat lit_10_0).
Proof.
  intros Hparse Hd Ha Hb Hc.
  pose proof (parse_frame_ok _ _ _ Hparse) as Hok.
  unfold cell_at in Ha, Hb, Hc.
  destruct (getcol "Sequential Time" (columns d)) as [sq|] eqn:Hsq; [|discriminate].
  destruct (getcol "Parallel Time" (columns d)) as [pr|] eqn:Hpr; [|discriminate].
  destruct (getcol "Optimized Parallel Time" (columns d)) as [op|] eqn:Hop;
    [|discriminate].
  destruct (series_at sq i) as [a|] eqn:Ea; [|discriminate].
  destruct (series_at pr i) as [b|] eqn:Eb; [|discriminate].
  destruct (series_at op i) as [c|] eqn:Ec; [|discriminate].
  simpl in Ha, Hb, Hc. injection Ha as Ha. injection Hb as Hb. injection Hc as Hc.
  eexists _, (derived d sq pr op).
  split; [apply (derive_columns_ok s d sq pr op); assumption|].
  split; [reflexivity|].
  destruct (derived_cells d sq pr op i a b c Hok Hsq Ea Eb Ec) as (_ & Hp & Ho).
  rewrite Hp, Ho, Ha, Hb, Hc. split; reflexivity.
Qed.

Lemma sample_row_ratios_witness :
  cell_at times_frame "Input Size" 0 = Some (NInt 100) /\
  exists s' d',
    derive_columns (loaded times_frame) = Ok tt s' /\ df s' = Some d' /\
    cell_at d' "Parallel Relative" 0 = Some (NFloat lit_5_0) /\
    cell_at d' "Optimized Relative" 0 = Some (NFloat lit_10_0).
Proof.
  split; [reflexivity|].
  apply (sample_row_ratios (loaded times_frame) times_header times_lines
           times_frame 0%nat); reflexivity.
Defined.

(** ** The files of a complete run *)

Lemma write_file_eq path f dir : write_file path f dir !! path = Some f.
Proof. unfold write_file. apply lookup_insert_eq. Qed.

Lemma write_file_ne path path' f dir :
  path <> path' -> write_file path f dir !! path' = dir !! path'.
Proof. unfold write_file. apply lookup_insert_ne. Qed.

Lemma chart_names_distinct :
  chart1_png <> chart2_png /\ chart1_png <> chart3_png /\ chart2_png <> chart3_png.
Proof. repeat split; discriminate. Qed.

Lemma completed_files dir d x sq pr op ps os :
  let s' := completed dir d x sq pr op ps os in
  cwd s' !! chart1_png = Some (Png 300 (figure1 x sq pr op)) /\
  cwd s' !! chart2_png = Some (Png 300 (figure2 x ps os)) /\
  cwd s' !! chart3_png
    = Some (Png 300 (figure3 (nrows d) x (Int64 (repeat 1 (nrows d)))
                       (truediv sq pr) (truediv sq op))) /\
  forall path,
    path <> chart1_png -> path <> chart2_png -> path <> chart3_png ->
    cwd s' !! path = dir !! path.
Proof.
  destruct chart_names_distinct as (H12 & H13 & H23).
  unfold completed. cbn [cwd]. repeat split.
  - rewrite !write_file_ne by congruence. apply write_file_eq.
  - rewrite write_file_ne by congruence. apply write_file_eq.
  - apply write_file_eq.
  - intros path H1 H2 H3. now rewrite !write_file_ne by congruence.
Qed.

(** C8.  A run that completes has written three files and no others, in
    this order: execution_time_comparison.png, speedup_comparison.png and
    relative_performance_comparison.png.  Each holds, at 300 DPI, the figure
    drawn from the loaded table, whatever the working directory held under
    that name before; every other file of the directory is as it was. *)
Theorem three_charts_written (dir : gmap string file) (s' : state) :
  run dir = Ok tt s' ->
  saves (trace s') = [chart1_png; chart2_png; chart3_png] /\
  (exists f1 f2 f3,
      cwd s' !! chart1_png = Some (Png 300 f1) /\
      cwd s' !! chart2_png = Some (Png 300 f2) /\
      cwd s' !! chart3_png = Some (Png 300 f3) /\
      gcf s' = f3) /\
  (forall path,
      path <> chart1_png -> path <> chart2_png -> path <> chart3_png ->
      cwd s' !! path = dir !! path).
Proof.
  intros (header & lines & d & x & sq & pr & op & ps & os & _ & _ & _ & _ & _
          & _ & _ & _ & ->)%run_inv.
  destruct (completed_files dir d x sq pr op ps os) as (H1 & H2 & H3 & Hrest).
  split; [reflexivity|]. split; [|exact Hrest].
  eexists _, _, _. repeat split; eassumption || reflexivity.
Qed.

Lemma three_charts_written_witness :
  saves (trace (final (run report_dir_stale)))
    = [chart1_png; chart2_png; chart3_png] /\
  (exists f1 f2 f3,
      cwd (final (run report_dir_stale)) !! chart1_png = Some (Png 300 f1) /\
      cwd (final (run report_dir_stale)) !! chart2_png = Some (Png 300 f2) /\
      cwd (final (run report_dir_stale)) !! chart3_png = Some (Png 300 f3) /\
      gcf (final (run report_dir_stale)) = f3) /\
  (forall path,
      path <> chart1_png -> path <> chart2_png -> path <> chart3_png ->
      cwd (final (run report_dir_stale)) !! path = report_dir_stale !! path).
Proof.
  apply (three_charts_written report_dir_stale). vm_compute. reflexivity.
Defined.

(** ** The loaded columns are left alone *)

(** C10.  In a run that completes, each of the six columns read from the
    file has, in the final table, exactly the series it was loaded with;
    more generally every column other than the three derived ones does.
    The files of charts 1 and 2 hold the series as loaded. *)
Theorem loaded_columns_unchanged (dir : gmap string file) (s' : state) :
  run dir = Ok tt s' ->
  exists header lines d0 d' x sq pr op ps os,
    dir !! input_csv = Some (Csv header lines) /\
    parse header lines = Some d0 /\
    df s' = Some d' /\
    map (fun name => getcol name (columns d0)) report_columns
      = [Some x; Some sq; Some pr; Some op; Some ps; Some os] /\
    map (fun name => getcol name (columns d')) report_columns
      = [Some x; Some sq; Some pr; Some op; Some ps; Some os] /\
    (forall name, is_derived name = false ->
                  getcol name (columns d') = getcol name (columns d0)) /\
    cwd s' !! chart1_png = Some (Png 300 (figure1 x sq pr op)) /\
    cwd s' !! chart2_png = Some (Png 300 (figure2 x ps os)).
Proof.
  intros (header & lines & d & x & sq & pr & op & ps & os & Hf & Hparse & Hx & Hsq
          & Hpr & Hop & Hps & Hos & ->)%run_inv.
  destruct (completed_files dir d x sq pr op ps os) as (H1 & H2 & _ & _).
  exists header, lines, d, (derived d sq pr op), x, sq, pr, op, ps, os.
  split; [exact Hf|]. split; [exact Hparse|]. split; [reflexivity|].
  split; [simpl; now rewrite Hx, Hsq, Hpr, Hop, Hps, Hos|].
  split.
  { unfold report_columns. cbn [map].
    rewrite !getcol_derived_other by reflexivity.
    now rewrite Hx, Hsq, Hpr, Hop, Hps, Hos. }
  split; [intros name Hn; now apply getcol_derived_other|].
  split; assumption.
Qed.

Lemma loaded_columns_unchanged_witness :
  exists header lines d0 d' x sq pr op ps os,
    report_dir !! input_csv = Some (Csv header lines) /\
    parse header lines = Some d0 /\
    df (final (run report_dir)) = Some d' /\
    map (fun name => getcol name (columns d0)) report_columns
      = [Some x; Some sq; Some pr; Some op; Some ps; Some os] /\
    map (fun name => getcol name (columns d')) report_columns
      = [Some x; Some sq; Some pr; Some op; Some ps; Some os] /\
    (forall name, is_derived name = false ->
                  getcol name (columns d') = getcol name (columns d0)) /\
    cwd (final (run report_dir)) !! chart1_png = Some (Png 300 (figure1 x sq pr op)) /\
    cwd (final (run report_dir)) !! chart2_png = Some (Png 300 (figure2 x ps os)).
Proof.
  apply (loaded_columns_unchanged report_dir). vm_compute. reflexivity.
Defined.

(** ** Failing runs *)

(** C4.  Failure is not atomic.  On the report without the speedup columns,
    started in a directory that holds no chart, the run stops with
    [KeyError: 'Parallel Speedup'] after execution_time_comparison.png has
    been written. *)
Theorem failure_leaves_first_chart :
  exists (dir : gmap string file) (e : exn) (s' : state) (fig : figure),
    run dir = Raised e s' /\
    e = KeyError "Parallel Speedup" /\
    dir !! chart1_png = None /\
    cwd s' !! chart1_png = Some (Png 300 fig) /\
    saves (trace s') = [chart1_png].
Proof.
  exists times_dir. eexists _, _, _.
  split; [vm_compute; reflexivity|].
  repeat split; vm_compute; reflexivity.
Qed.

Lemma getcol_parse_missing header lines d name :
  parse header lines = Some d -> ~ In name header ->
  getcol name (columns d) = None.
Proof.
  intros ->%parse_Some Hn. cbn [columns].
  now rewrite getcol_build_columns, index_of_None.
Qed.

(** C3.  When the header of the input file has no [Optimized Parallel Time]
    column the run ends in an exception (the parser's, or a [KeyError]) with
    the working directory exactly as it was found: no chart file has been
    written, execution_time_comparison.png included. *)
Theorem missing_optimized_column_is_fatal (dir : gmap string file) header lines :
  dir !! input_csv = Some (Csv header lines) ->
  ~ In "Optimized Parallel Time" header ->
  exists e s',
    run dir = Raised e s' /\
    (e = ParserError \/ exists k, e = KeyError k /\ ~ In k header) /\
    cwd s' = dir /\
    saves (trace s') = [].
Proof.
  intros Hf Hmiss. unfold run, script.
  destruct (read_csv_cases input_csv (start dir))
    as [(header' & lines' & d & Hf' & Hparse & Hread)|(e & Hread & He)].
  - simpl in Hf'. rewrite Hf in Hf'. injection Hf' as <- <-.
    rewrite (bind_Ok _ _ _ _ _ Hread).
    match goal with |- context [bind plot1 _ ?s] =>
      destruct (plot1_cases s d eq_refl)
        as [(x & sq & pr & op & _ & _ & _ & Hop & _)|(k & s1 & H1 & Hk & _ & Hc & Ht)]
    end.
    + rewrite (getcol_parse_missing _ _ _ _ Hparse Hmiss) in Hop. discriminate.
    + rewrite (bind_Raised _ _ _ _ _ H1). exists (KeyError k), s1.
      simpl in Hc, Ht.
      split; [reflexivity|]. split; [|split; [exact Hc | exact Ht]].
      right. exists k. split; [reflexivity|]. intros Hin.
      apply parse_Some in Hparse. subst d. cbn [columns] in Hk.
      rewrite getcol_build_columns in Hk.
      destruct (index_of k header) eqn:E; [discriminate|].
      now apply (index_of_None_inv k header).
  - rewrite (bind_Raised _ _ _ _ _ Hread). exists e, (start dir).
    split; [reflexivity|]. split; [|split; reflexivity].
    left. destruct He as [->| ->]; [|reflexivity].
    exfalso. unfold read_csv in Hread. simpl in Hread. rewrite Hf in Hread.
    destruct (parse header lines); discriminate.
Qed.

Lemma missing_optimized_column_is_fatal_witness :
  exists e s',
    run short_dir = Raised e s' /\
    (e = ParserError \/ exists k, e = KeyError k /\ ~ In k short_header) /\
    cwd s' = short_dir /\
    saves (trace s') = [].
Proof.
  apply (missing_optimized_column_is_fatal short_dir short_header
           [[IntLit 100; IntLit 10; IntLit 2]]).
  - reflexivity.
  - simpl. intros [H|[H|[H|[]]]]; discriminate.
Defined.

(** ** The order of effects *)

Section Emits.

Lemma emits_bind {A B} (m : M A) (k : A -> M B) e1 e2 :
  emits m e1 -> (forall a, emits (k a) e2) -> emits (bind m k) (e1 ++ e2).
Proof.
  intros Hm Hk s. unfold bind. specialize (Hm s).
  destruct (m s) as [a s1|e s1].
  - specialize (Hk a s1). destruct (k a s1) as [b s2|e s2].
    + now rewrite Hk, Hm, <- app_assoc.
    + destruct Hk as (p & Hp & Ht). exists (e1 ++ p)%list. split.
      * now apply prefix_app.
      * now rewrite Ht, Hm, <- app_assoc.
  - destruct Hm as (p & Hp & Ht). exists p. split; [|exact Ht].
    now apply prefix_app_r.
Qed.

Lemma emits_eq {A} (m : M A) e e' : emits m e -> e = e' -> emits m e'.
Proof. now intros H <-. Qed.

Lemma emits_silent_raise {A} (m : M A) :
  (forall s, match m s with Ok _ s' | Raised _ s' => s' = s end) -> emits m [].
Proof.
  intros H s. specialize (H s). destruct (m s); subst.
  - now rewrite app_nil_r.
  - exists []. split; [reflexivity | now rewrite app_nil_r].
Qed.

Lemma emits_getitem name : emits (getitem name) [].
Proof.
  apply emits_silent_raise. intros s. unfold getitem.
  destruct (df s) as [d|]; [|reflexivity].
  now destruct (getcol name (columns d)).
Qed.

Lemma emits_len_df : emits len_df [].
Proof.
  apply emits_silent_raise. intros s. unfold len_df. now destruct (df s).
Qed.

Lemma emits_setitem name v : emits (setitem name v) [EvSetitem name].
Proof.
  intros s. unfold setitem. destruct (df s); [reflexivity|].
  exists []. split; [apply prefix_nil | now rewrite app_nil_r].
Qed.

Lemma emits_setitem_scalar name z : emits (setitem_scalar name z) [EvSetitem name].
Proof.
  intros s. unfold setitem_scalar, setitem. destruct (df s); [reflexivity|].
  exists []. split; [apply prefix_nil | now rewrite app_nil_r].
Qed.

Lemma emits_read_csv path : emits (read_csv path) [EvRead path].
Proof.
  intros s. unfold read_csv.
  destruct (cwd s !! path) as [[header lines| |]|];
    [destruct (parse header lines); [reflexivity|] | ..];
    (exists []; split; [apply prefix_nil | now rewrite app_nil_r]).
Qed.

Lemma emits_figure w h : emits (plt_figure w h) [EvFigure].
Proof. intros s. reflexivity. Qed.

Lemma emits_draw a : emits (draw a) [EvDraw].
Proof. intros s. reflexivity. Qed.

Lemma emits_savefig path dpi : emits (plt_savefig path dpi) [EvSave path].
Proof. intros s. reflexivity. Qed.

Lemma emits_show : emits plt_show [EvShow].
Proof. intros s. reflexivity. Qed.

End Emits.

Create HintDb emits.
#[local] Hint Resolve emits_getitem emits_len_df emits_setitem emits_setitem_scalar
  emits_read_csv emits_figure emits_draw emits_savefig emits_show : emits.

Ltac emits_chain :=
  eapply emits_eq;
  [ repeat (eapply emits_bind; [solve [eauto with emits] | intros]);
    solve [eauto with emits]
  | reflexivity ].

Lemma emits_plot1 : emits plot1 (chart_events chart1_png 11).
Proof. unfold plot1. emits_chain. Qed.

Lemma emits_plot2 : emits plot2 (chart_events chart2_png 10).
Proof. unfold plot2. emits_chain. Qed.

Lemma emits_derive_columns : emits derive_columns derive_events.
Proof. unfold derive_columns. emits_chain. Qed.

Lemma emits_plot3 : emits plot3 (chart_events chart3_png 10).
Proof. unfold plot3. emits_chain. Qed.

#[local] Hint Resolve emits_plot1 emits_plot2 emits_derive_columns emits_plot3 : emits.

Lemma emits_script : emits script schedule.
Proof. unfold script. emits_chain. Qed.

(** ** Independence from the rest of the directory *)

Section Blind.

Lemma same_result_bind {A B} (m : M A) (k : A -> M B) s1 s2 :
  same_result (m s1) (m s2) -> (forall a, blind (k a)) ->
  same_result (bind m k s1) (bind m k s2).
Proof.
  intros Hm Hk. unfold bind.
  destruct (m s1) as [a1 t1|e1 t1], (m s2) as [a2 t2|e2 t2]; simpl in Hm;
    try contradiction.
  - destruct Hm as [<- Ht]. now apply Hk.
  - exact Hm.
Qed.

Lemma blind_bind {A B} (m : M A) (k : A -> M B) :
  blind m -> (forall a, blind (k a)) -> blind (bind m k).
Proof. intros Hm Hk s1 s2 Hs. apply same_result_bind; auto. Qed.

Lemma blind_getitem name : blind (getitem name).
Proof.
  intros s1 s2 Hs. pose proof Hs as (Hd & _). unfold getitem. rewrite <- Hd.
  destruct (df s1) as [d|]; [|now split].
  destruct (getcol name (columns d)); now split.
Qed.

Lemma blind_len_df : blind len_df.
Proof.
  intros s1 s2 Hs. pose proof Hs as (Hd & _). unfold len_df. rewrite <- Hd.
  destruct (df s1); now split.
Qed.

Lemma blind_setitem name v : blind (setitem name v).
Proof.
  intros s1 s2 Hs. pose proof Hs as (Hd & Hg & Ht). unfold setitem.
  rewrite <- Hd. destruct (df s1); [|now split].
  split; [reflexivity|]. unfold agree, log. simpl. now rewrite Hg, Ht.
Qed.

Lemma blind_setitem_scalar name z : blind (setitem_scalar name z).
Proof.
  intros s1 s2 Hs. pose proof Hs as (Hd & _). unfold setitem_scalar.
  pose proof (blind_setitem name) as Hset.
  rewrite <- Hd. destruct (df s1) as [d|]; [|now split].
  now apply Hset.
Qed.

Lemma blind_figure w h : blind (plt_figure w h).
Proof.
  intros s1 s2 (Hd & Hg & Ht). split; [reflexivity|].
  unfold agree. simpl. now rewrite Hd, Ht.
Qed.

Lemma blind_draw a : blind (draw a).
Proof.
  intros s1 s2 (Hd & Hg & Ht). split; [reflexivity|].
  unfold agree. simpl. now rewrite Hd, Hg, Ht.
Qed.

(** Writing a file changes the directory only. *)
Lemma blind_savefig path dpi : blind (plt_savefig path dpi).
Proof.
  intros s1 s2 (Hd & Hg & Ht). split; [reflexivity|].
  unfold agree. simpl. now rewrite Hd, Hg, Ht.
Qed.

Lemma blind_show : blind plt_show.
Proof.
  intros s1 s2 (Hd & Hg & Ht). split; [reflexivity|].
  unfold agree. simpl. now rewrite Hd, Hg, Ht.
Qed.

End Blind.

Create HintDb blind.
#[local] Hint Resolve blind_getitem blind_len_df blind_setitem blind_setitem_scalar
  blind_figure blind_draw blind_savefig blind_show : blind.

Ltac blind_chain :=
  repeat (apply blind_bind; [solve [auto with blind] | intros]);
  solve [auto with blind].

Lemma blind_plot1 : blind plot1.
Proof. unfold plot1. blind_chain. Qed.

Lemma blind_plot2 : blind plot2.
Proof. unfold plot2. blind_chain. Qed.

Lemma blind_derive_columns : blind derive_columns.
Proof. unfold derive_columns. blind_chain. Qed.

Lemma blind_plot3 : blind plot3.
Proof. unfold plot3. blind_chain. Qed.

#[local] Hint Resolve blind_plot1 blind_plot2 blind_derive_columns blind_plot3 : blind.

(** The reader looks at one file only. *)
Lemma read_csv_same path s1 s2 :
  agree s1 s2 -> cwd s1 !! path = cwd s2 !! path ->
  same_result (read_csv path s1) (read_csv path s2).
Proof.
  intros (Hd & Hg & Ht) Hf. unfold read_csv. rewrite <- Hf.
  destruct (cwd s1 !! path) as [[header lines| |]|]; try (now repeat split).
  destruct (parse header lines); [|now repeat split].
  split; [reflexivity|]. unfold agree. simpl. now rewrite Hg, Ht.
Qed.

(** C6.  Two runs whose input files are identical, in directories that may
    otherwise differ, end alike: both complete or both raise the same
    exception, and they leave the same table (the loaded columns and the
    three derived series), the same figure and the same trace. *)
Theorem numeric_series_deterministic (dir1 dir2 : gmap string file) :
  dir1 !! input_csv = dir2 !! input_csv ->
  same_result (run dir1) (run dir2) /\
  df (final (run dir1)) = df (final (run dir2)).
Proof.
  intros Hf.
  assert (same_result (run dir1) (run dir2)) as H.
  { unfold run, script. apply same_result_bind.
    - apply read_csv_same; [now repeat split | exact Hf].
    - intros _. blind_chain. }
  split; [exact H|].
  destruct (run dir1) as [a1 t1|e1 t1], (run dir2) as [a2 t2|e2 t2];
    simpl in H; try contradiction; now destruct H as (_ & Hd & _).
Qed.

Lemma numeric_series_deterministic_witness :
  same_result (run report_dir) (run report_dir_stale) /\
  df (final (run report_dir)) = df (final (run report_dir_stale)).
Proof.
  apply (numeric_series_deterministic report_dir report_dir_stale).
  vm_compute. reflexivity.
Defined.

(** ** The table invariant *)

Lemma keeps_bind {A B} (I : state -> Prop) (m : M A) (k : A -> M B) Q R :
  keeps I m Q -> (forall a, Q a -> keeps I (k a) R) -> keeps I (bind m k) R.
Proof.
  intros Hm Hk s Hs. unfold bind. specialize (Hm s Hs).
  destruct (m s) as [a s1|e s1]; [|exact Hm].
  destruct Hm as [H1 Ha]. exact (Hk a Ha s1 H1).
Qed.

Lemma series_len_truediv a b n :
  series_len a = n -> series_len b = n -> series_len (truediv a b) = n.
Proof.
  intros Ha Hb. unfold truediv. simpl. rewrite length_zip_with.
  assert (length (astype_float a) = n) as ->
    by (destruct a; simpl in *; now rewrite ?length_map).
  assert (length (astype_float b) = n) as ->
    by (destruct b; simpl in *; now rewrite ?length_map).
  lia.
Qed.

Lemma getcol_setcol_derived name name' v cols :
  is_derived name = true -> is_derived name' = false ->
  getcol name' (setcol name v cols) = getcol name' cols.
Proof.
  intros H1 H2. rewrite getcol_setcol.
  destruct (String.eqb_spec name name') as [->|_]; [congruence | reflexivity].
Qed.

Section TableInvariant.
Variable d0 : DataFrame.

(** Calls that leave [df] as it is. *)
Lemma keeps_same_df {A} (m : M A) :
  (forall s, df (final (m s)) = df s) -> keeps (table_inv d0) m (fun _ => True).
Proof.
  intros H s (d & Hd & Hrest). specialize (H s).
  assert (table_inv d0 (final (m s))) by (exists d; now rewrite H).
  destruct (m s); simpl in *; auto.
Qed.

Lemma keeps_figure w h : keeps (table_inv d0) (plt_figure w h) (fun _ => True).
Proof. now apply keeps_same_df. Qed.

Lemma keeps_draw a : keeps (table_inv d0) (draw a) (fun _ => True).
Proof. now apply keeps_same_df. Qed.

Lemma keeps_savefig path dpi : keeps (table_inv d0) (plt_savefig path dpi) (fun _ => True).
Proof. now apply keeps_same_df. Qed.

Lemma keeps_show : keeps (table_inv d0) plt_show (fun _ => True).
Proof. now apply keeps_same_df. Qed.

(** A column read under the invariant has one entry per row. *)
Lemma keeps_getitem name :
  keeps (table_inv d0) (getitem name) (fun v => series_len v = nrows d0).
Proof.
  intros s (d & Hd & Hn & Hok & Hcols). unfold getitem. rewrite Hd.
  destruct (getcol name (columns d)) as [v|] eqn:Hv.
  - split; [now exists d|]. rewrite <- Hn. now apply (frame_ok_len d name).
  - now exists d.
Qed.

Lemma keeps_len_df : keeps (table_inv d0) len_df (fun n => n = nrows d0).
Proof.
  intros s (d & Hd & Hn & Hok & Hcols). unfold len_df. rewrite Hd.
  split; [now exists d | exact Hn].
Qed.

(** Assigning a full-length series under a derived name. *)
Lemma keeps_setitem name v :
  is_derived name = true -> series_len v = nrows d0 ->
  keeps (table_inv d0) (setitem name v) (fun _ => True).
Proof.
  intros Hname Hlen s (d & Hd & Hn & Hok & Hcols). unfold setitem. rewrite Hd.
  split; [|exact I]. eexists. split; [reflexivity|]. cbn [nrows columns].
  split; [exact Hn|]. split.
  - intros k x [Hin|[-> ->]]%In_setcol; cbn [nrows columns].
    + now apply (Hok k).
    + now rewrite Hn.
  - intros name' Hname'. rewrite getcol_setcol_derived by assumption.
    now apply Hcols.
Qed.

Lemma keeps_setitem_scalar name z :
  is_derived name = true -> keeps (table_inv d0) (setitem_scalar name z) (fun _ => True).
Proof.
  intros Hname s Hs. pose proof Hs as (d & Hd & Hn & _).
  unfold setitem_scalar. rewrite Hd.
  apply (keeps_setitem name (Int64 (repeat z (nrows d)))); [exact Hname | | exact Hs].
  simpl. now rewrite repeat_length.
Qed.

End TableInvariant.

Create HintDb keeps.
#[local] Hint Resolve keeps_figure keeps_draw keeps_savefig keeps_show keeps_getitem
  keeps_len_df keeps_setitem keeps_setitem_scalar series_len_truediv : keeps.

Ltac keeps_chain :=
  repeat (eapply keeps_bind; [solve [eauto with keeps] | intros]);
  solve [eauto with keeps].

Lemma keeps_plot1 d0 : keeps (table_inv d0) plot1 (fun _ => True).
Proof. unfold plot1. keeps_chain. Qed.

Lemma keeps_plot2 d0 : keeps (table_inv d0) plot2 (fun _ => True).
Proof. unfold plot2. keeps_chain. Qed.

Lemma keeps_derive_columns d0 : keeps (table_inv d0) derive_columns (fun _ => True).
Proof. unfold derive_columns. keeps_chain. Qed.

Lemma keeps_plot3 d0 : keeps (table_inv d0) plot3 (fun _ => True).
Proof. unfold plot3. keeps_chain. Qed.

#[local] Hint Resolve keeps_plot1 keeps_plot2 keeps_derive_columns keeps_plot3 : keeps.

Lemma table_inv_parsed header lines d0 g c t :
  parse header lines = Some d0 -> table_inv d0 (mkState (Some d0) g c t).
Proof.
  intros Hparse. exists d0. repeat split; try reflexivity.
  now apply (parse_frame_ok header lines).
Qed.

(** C2.  However a run on the input file ends, normally or by an exception
    at any statement, a table that has been loaded satisfies the table
    invariant: it has one row per data line of the file, every column,
    loaded or derived, has exactly that many entries, and every column other
    than the three derived ones holds the fields of its file column, one
    per data line, in file order. *)
Theorem table_shape_preserved (dir : gmap string file) header lines d :
  dir !! input_csv = Some (Csv header lines) ->
  df (final (run dir)) = Some d ->
  nrows d = length lines /\
  (forall name v, In (name, v) (columns d) -> series_len v = length lines) /\
  (forall name j,
      index_of name header = Some j -> is_derived name = false ->
      getcol name (columns d)
        = Some (infer (column_cells (leading_cols header lines + j) lines))).
Proof.
  intros Hf Hd.
  destruct (read_csv_cases input_csv (start dir))
    as [(header' & lines' & d0 & Hf' & Hparse & Hread)|(e & Hread & _)].
  2:{ unfold run, script in Hd. rewrite (bind_Raised _ _ _ _ _ Hread) in Hd.
      discriminate. }
  simpl in Hf'. rewrite Hf in Hf'. injection Hf' as <- <-.
  unfold run, script in Hd. rewrite (bind_Ok _ _ _ _ _ Hread) in Hd.
  assert (keeps (table_inv d0) (plot1 ;; plot2 ;; derive_columns ;; plot3)
            (fun _ => True)) as Hkeeps by keeps_chain.
  match type of Hd with context [bind plot1 ?k ?s] =>
    specialize (Hkeeps s (table_inv_parsed header lines d0 _ _ _ Hparse));
    assert (table_inv d0 (final (bind plot1 k s))) as (d' & Hd' & Hn & Hok & Hcols)
      by (destruct (bind plot1 k s); simpl; tauto)
  end.
  rewrite Hd in Hd'. injection Hd' as <-.
  pose proof (parse_nrows _ _ _ Hparse) as Hrows.
  split; [congruence|]. split.
  - intros name v Hin. rewrite <- Hrows, <- Hn. now apply (Hok name).
  - intros name j Hj Hname. rewrite (Hcols name Hname).
    apply parse_Some in Hparse. subst d0. cbn [columns].
    now rewrite getcol_build_columns, Hj.
Qed.

Lemma table_shape_preserved_witness :
  let d := derived report_frame (Int64 [10]) (Int64 [2]) (Int64 [1]) in
  nrows d = length report_lines /\
  (forall name v, In (name, v) (columns d) -> series_len v = length report_lines) /\
  (forall name j,
      index_of name report_columns = Some j -> is_derived name = false ->
      getcol name (columns d)
        = Some (infer (column_cells
                         (leading_cols report_columns report_lines + j)
                         report_lines))).
Proof.
  apply (table_shape_preserved report_dir report_columns report_lines); reflexivity.
Defined.

(** * Further properties of the script *)

(** ** Where a run stops *)

Ltac stop_facts :=
  cbn [df cwd trace]; repeat split; rewrite !saves_app; simpl; now rewrite ?app_nil_r.

(** Chart 1 stops at the first time column the table lacks. *)
Lemma plot1_stops s d k :
  df s = Some d ->
  find (missing (columns d)) time_columns = Some k ->
  exists s',
    plot1 s = Raised (KeyError k) s' /\ df s' = Some d /\ cwd s' = cwd s /\
    saves (trace s') = saves (trace s).
Proof.
  intros Hd Hk. destruct s as [o g c t]. simpl in Hd. subst o.
  unfold time_columns, missing in Hk. cbn [find] in Hk.
  destruct (getcol "Input Size" (columns d)) as [x|] eqn:Hx.
  2:{ injection Hk as <-. eexists. split;
      [unfold plot1; repeat exec; exec_raise; reflexivity | stop_facts]. }
  destruct (getcol "Sequential Time" (columns d)) as [sq|] eqn:Hs.
  2:{ injection Hk as <-. eexists. split;
      [unfold plot1; repeat exec; exec_raise; reflexivity | stop_facts]. }
  destruct (getcol "Parallel Time" (columns d)) as [pr|] eqn:Hp.
  2:{ injection Hk as <-. eexists. split;
      [unfold plot1; repeat exec; exec_raise; reflexivity | stop_facts]. }
  destruct (getcol "Optimized Parallel Time" (columns d)) as [op|] eqn:Ho.
  2:{ injection Hk as <-. eexists. split;
      [unfold plot1; repeat exec; exec_raise; reflexivity | stop_facts]. }
  discriminate.
Qed.

(** Chart 2 stops at the first speedup column the table lacks. *)
Lemma plot2_stops s d x k :
  df s = Some d ->
  getcol "Input Size" (columns d) = Some x ->
  find (missing (columns d)) speedup_columns = Some k ->
  exists s',
    plot2 s = Raised (KeyError k) s' /\ df s' = Some d /\ cwd s' = cwd s /\
    saves (trace s') = saves (trace s).
Proof.
  intros Hd Hx Hk. destruct s as [o g c t]. simpl in Hd. subst o.
  unfold speedup_columns, missing in Hk. cbn [find] in Hk.
  destruct (getcol "Parallel Speedup" (columns d)) as [ps|] eqn:Hps.
  2:{ injection Hk as <-. eexists. split;
      [unfold plot2; repeat exec; exec_raise; reflexivity | stop_facts]. }
  destruct (getcol "Optimized Speedup" (columns d)) as [os|] eqn:Hos.
  2:{ injection Hk as <-. eexists. split;
      [unfold plot2; repeat exec; exec_raise; reflexivity | stop_facts]. }
  discriminate.
Qed.

Lemma find_missing_None cols names :
  find (missing cols) names = None ->
  Forall (fun k => exists v, getcol k cols = Some v) names.
Proof.
  induction names as [|k rest IH]; simpl; [constructor|].
  unfold missing at 1. destruct (getcol k cols) as [v|] eqn:Hk; [|discriminate].
  intros H. constructor; [eauto | now apply IH].
Qed.

Lemma first_missing_split cols :
  first_missing cols =
  match find (missing cols) time_columns with
  | Some k => Some k
  | None => find (missing cols) speedup_columns
  end.
Proof.
  unfold first_missing.
  change report_columns with (time_columns ++ speedup_columns)%list.
  generalize time_columns as l. induction l as [|k rest IH]; simpl; [reflexivity|].
  now destruct (missing cols k).
Qed.

(** The whole run, by cases on the input. *)
Lemma run_outcome (dir : gmap string file) :
  match dir !! input_csv with
  | None => run dir = Raised (FileNotFoundError input_csv) (start dir)
  | Some (Csv header lines) =>
      match parse header lines with
      | None => run dir = Raised ParserError (start dir)
      | Some d =>
          match find (missing (columns d)) time_columns with
          | Some k =>
              exists s',
                run dir = Raised (KeyError k) s' /\ df s' = Some d /\
                cwd s' = dir /\ saves (trace s') = []
          | None =>
              match find (missing (columns d)) speedup_columns with
              | Some k =>
                  exists s' x sq pr op,
                    run dir = Raised (KeyError k) s' /\ df s' = Some d /\
                    cwd s' = write_file chart1_png (Png 300 (figure1 x sq pr op)) dir /\
                    saves (trace s') = [chart1_png]
              | None =>
                  exists x sq pr op ps os,
                    run dir = Ok tt (completed dir d x sq pr op ps os)
              end
          end
      end
  | Some _ => run dir = Raised ParserError (start dir)
  end.
Proof.
  destruct (dir !! input_csv) as [[header lines| |]|] eqn:Hf;
    try (unfold run, script, bind, read_csv; cbn [cwd start]; now rewrite Hf).
  destruct (parse header lines) as [d|] eqn:Hparse;
    [|unfold run, script, bind, read_csv; cbn [cwd start]; now rewrite Hf, Hparse].
  set (s1 := mkState (Some d) (mkFigure None []) dir [EvRead input_csv]).
  assert (read_csv input_csv (start dir) = Ok tt s1)
    as Hread by (now apply (read_csv_Some input_csv (start dir) header lines d)).
  destruct (find (missing (columns d)) time_columns) as [k|] eqn:Htime.
  { destruct (plot1_stops s1 d k eq_refl Htime) as (s' & H1 & Hd & Hc & Ht).
    exists s'. unfold run, script.
    rewrite (bind_Ok _ _ _ _ _ Hread), (bind_Raised _ _ _ _ _ H1). now repeat split. }
  pose proof (find_missing_None _ _ Htime) as Hall. unfold time_columns in Hall.
  inversion Hall as [|? ? [x Hx] Hall1]; subst.
  inversion Hall1 as [|? ? [sq Hsq] Hall2]; subst.
  inversion Hall2 as [|? ? [pr Hpr] Hall3]; subst.
  inversion Hall3 as [|? ? [op Hop] _]; subst.
  pose proof (plot1_ok s1 d x sq pr op eq_refl Hx Hsq Hpr Hop) as H1.
  cbn [s1 cwd trace] in H1.
  set (s2 := mkState (Some d) (figure1 x sq pr op)
               (write_file chart1_png (Png 300 (figure1 x sq pr op)) dir)
               ([EvRead input_csv] ++ chart_events chart1_png 11)) in H1.
  destruct (find (missing (columns d)) speedup_columns) as [k|] eqn:Hspeed.
  { destruct (plot2_stops s2 d x k eq_refl Hx Hspeed) as (s' & H2 & Hd & Hc & Ht).
    exists s', x, sq, pr, op. unfold run, script.
    rewrite (bind_Ok _ _ _ _ _ Hread), (bind_Ok _ _ _ _ _ H1),
      (bind_Raised _ _ _ _ _ H2).
    split; [reflexivity|]. split; [exact Hd|]. split; [exact Hc|].
    rewrite Ht. reflexivity. }
  pose proof (find_missing_None _ _ Hspeed) as Hall'. unfold speedup_columns in Hall'.
  inversion Hall' as [|? ? [ps Hps] Hall4]; subst.
  inversion Hall4 as [|? ? [os Hos] _]; subst.
  exists x, sq, pr, op, ps, os. now apply (run_ok dir header lines).
Qed.

Lemma time_column_not_speedup k :
  In k time_columns -> existsb (String.eqb k) speedup_columns = false.
Proof. intros [<-|[<-|[<-|[<-|[]]]]]; reflexivity. Qed.

Lemma speedup_column_is_speedup k :
  In k speedup_columns -> existsb (String.eqb k) speedup_columns = true.
Proof. intros [<-|[<-|[]]]; reflexivity. Qed.

(** X1.  An exception names its cause.  A run ends in [FileNotFoundError]
    exactly when the input file is absent, in the parser's error exactly
    when the reader rejects the file, and in [KeyError] for a column exactly
    when that column is the first of Input Size, Sequential Time, Parallel
    Time, Optimized Parallel Time, Parallel Speedup, Optimized Speedup (the
    script's lookup order) that the table lacks. *)
Theorem exception_names_cause (dir : gmap string file) (e : exn) :
  (exists s', run dir = Raised e s') <-> expected_exn dir = Some e.
Proof.
  pose proof (run_outcome dir) as H. unfold expected_exn.
  destruct (dir !! input_csv) as [[header lines| |]|];
    try (rewrite H; split; [intros [s' [= <- _]]; reflexivity
                           | intros [= <-]; eauto]).
  destruct (parse header lines) as [d|];
    [|rewrite H; split; [intros [s' [= <- _]]; reflexivity | intros [= <-]; eauto]].
  rewrite first_missing_split.
  destruct (find (missing (columns d)) time_columns) as [k|].
  { destruct H as (s1 & -> & _). split; [intros [s' [= <- _]]; reflexivity|].
    intros [= <-]. eauto. }
  destruct (find (missing (columns d)) speedup_columns) as [k|].
  - destruct H as (s1 & x & sq & pr & op & -> & _).
    split; [intros [s' [= <- _]]; reflexivity|]. intros [= <-]. eauto.
  - destruct H as (x & sq & pr & op & ps & os & ->).
    split; [intros [s' [=]] | intros [=]].
Qed.

(** X2.  What a failed run leaves behind.  A run that stops on a missing
    input file, on the parser's error or on a missing time column has
    written nothing: the directory is exactly as it was found.  A run that
    stops on a missing speedup column has written
    execution_time_comparison.png, at 300 DPI, and nothing else.  The
    global [df] is never used unbound. *)
Theorem charts_left_by_failed_run (dir : gmap string file) e s' :
  run dir = Raised e s' ->
  match e with
  | KeyError k =>
      if existsb (String.eqb k) speedup_columns
      then saves (trace s') = [chart1_png] /\
           exists fig, cwd s' = write_file chart1_png (Png 300 fig) dir
      else saves (trace s') = [] /\ cwd s' = dir
  | FileNotFoundError _ | ParserError => saves (trace s') = [] /\ cwd s' = dir
  | NameError _ => False
  end.
Proof.
  intros Hrun. pose proof (run_outcome dir) as H.
  destruct (dir !! input_csv) as [[header lines| |]|];
    try (rewrite H in Hrun; injection Hrun as <- <-; now split).
  destruct (parse header lines) as [d|];
    [|rewrite H in Hrun; injection Hrun as <- <-; now split].
  destruct (find (missing (columns d)) time_columns) as [k|] eqn:Htime.
  { destruct H as (s1 & H & _ & Hc & Ht). rewrite H in Hrun.
    injection Hrun as <- <-.
    rewrite (time_column_not_speedup k) by (now apply find_some in Htime).
    now split. }
  destruct (find (missing (columns d)) speedup_columns) as [k|] eqn:Hspeed.
  - destruct H as (s1 & x & sq & pr & op & H & _ & Hc & Ht). rewrite H in Hrun.
    injection Hrun as <- <-.
    rewrite (speedup_column_is_speedup k) by (now apply find_some in Hspeed).
    split; [exact Ht | eauto].
  - destruct H as (x & sq & pr & op & ps & os & H). rewrite H in Hrun. discriminate.
Qed.

Lemma charts_left_by_failed_run_witness :
  saves (trace (final (run times_dir))) = [chart1_png] /\
  exists fig,
    cwd (final (run times_dir)) = write_file chart1_png (Png 300 fig) times_dir.
Proof.
  apply (charts_left_by_failed_run times_dir (KeyError "Parallel Speedup")).
  vm_compute. reflexivity.
Defined.

(** X3.  However a run ends, it leaves every file other than the three
    chart files as it found it; the input file is never modified. *)
Theorem other_files_untouched (dir : gmap string file) (path : string) :
  ~ In path [chart1_png; chart2_png; chart3_png] ->
  cwd (final (run dir)) !! path = dir !! path.
Proof.
  intros Hpath.
  assert (path <> chart1_png /\ path <> chart2_png /\ path <> chart3_png)
    as (N1 & N2 & N3) by (simpl in Hpath; intuition congruence).
  pose proof (run_outcome dir) as H.
  destruct (dir !! input_csv) as [[header lines| |]|]; try (now rewrite H).
  destruct (parse header lines) as [d|]; [|now rewrite H].
  destruct (find (missing (columns d)) time_columns) as [k|].
  { destruct H as (s' & -> & _ & Hc & _). cbn [final]. now rewrite Hc. }
  destruct (find (missing (columns d)) speedup_columns) as [k|].
  - destruct H as (s' & x & sq & pr & op & -> & _ & Hc & _). cbn [final].
    rewrite Hc. now rewrite write_file_ne by congruence.
  - destruct H as (x & sq & pr & op & ps & os & ->). cbn [final].
    now apply completed_files.
Qed.

Lemma other_files_untouched_witness :
  cwd (final (run report_dir_stale)) !! input_csv = report_dir_stale !! input_csv.
Proof.
  apply (other_files_untouched report_dir_stale input_csv).
  simpl. intros [H|[H|[H|[]]]]; discriminate.
Defined.

(** X4.  A [KeyError] comes before any mutation of the table.  A run that
    stops with [KeyError] stops on one of the six report columns, absent
    from the table, and [df] is then exactly the table read from the file,
    without any derived column: the lookups of lines 41-51 cannot fail,
    their columns having been found for charts 1 and 2 or just assigned. *)
Theorem key_error_precedes_mutation (dir : gmap string file) k s' :
  run dir = Raised (KeyError k) s' ->
  In k report_columns /\
  exists d,
    loaded_frame dir = Some d /\ df s' = Some d /\ getcol k (columns d) = None.
Proof.
  intros Hrun. pose proof (run_outcome dir) as H. unfold loaded_frame.
  assert (forall cols names name,
             find (missing cols) names = Some name ->
             In name names /\ getcol name cols = None) as Hfind.
  { intros cols names name [Hin Hm]%find_some. split; [exact Hin|].
    unfold missing in Hm. now destruct (getcol name cols). }
  destruct (dir !! input_csv) as [[header lines| |]|];
    try (rewrite H in Hrun; discriminate).
  destruct (parse header lines) as [d|]; [|rewrite H in Hrun; discriminate].
  destruct (find (missing (columns d)) time_columns) as [k'|] eqn:Htime.
  { destruct H as (s1 & H & Hd & _). rewrite H in Hrun. injection Hrun as <- <-.
    destruct (Hfind _ _ _ Htime) as [Hin Hk].
    split; [apply (in_or_app time_columns speedup_columns); now left|].
    exists d. now repeat split. }
  destruct (find (missing (columns d)) speedup_columns) as [k'|] eqn:Hspeed.
  - destruct H as (s1 & x & sq & pr & op & H & Hd & _). rewrite H in Hrun.
    injection Hrun as <- <-.
    destruct (Hfind _ _ _ Hspeed) as [Hin Hk].
    split; [apply (in_or_app time_columns speedup_columns); now right|].
    exists d. now repeat split.
  - destruct H as (x & sq & pr & op & ps & os & H). rewrite H in Hrun. discriminate.
Qed.

Lemma key_error_precedes_mutation_witness :
  In "Parallel Speedup" report_columns /\
  exists d,
    loaded_frame times_dir = Some d /\ df (final (run times_dir)) = Some d /\
    getcol "Parallel Speedup" (columns d) = None.
Proof.
  apply (key_error_precedes_mutation times_dir "Parallel Speedup").
  vm_compute. reflexivity.
Defined.

(** ** What the charts hold *)

Lemma loaded_frame_Some dir d :
  loaded_frame dir = Some d ->
  exists header lines,
    dir !! input_csv = Some (Csv header lines) /\ parse header lines = Some d.
Proof.
  unfold loaded_frame.
  destruct (dir !! input_csv) as [[header lines| |]|]; try discriminate. eauto.
Qed.

Lemma completed_charts dir d x sq pr op ps os :
  charts (cwd (completed dir d x sq pr op ps os)) =
  [Some (Png 300 (figure1 x sq pr op)); Some (Png 300 (figure2 x ps os));
   Some (Png 300 (figure3 (nrows d) x (Int64 (repeat 1 (nrows d)))
                    (truediv sq pr) (truediv sq op)))].
Proof.
  destruct (completed_files dir d x sq pr op ps os) as (H1 & H2 & H3 & _).
  unfold charts. cbn [map]. now rewrite H1, H2, H3.
Qed.

(** X5.  Chart 3 of a completed run shows the final table: its three bar
    series are the columns [Sequential Relative], [Parallel Relative] and
    [Optimized Relative] as the table holds them at the end, one group per
    row, labelled by the table's [Input Size]. *)
Theorem chart3_shows_final_table (dir : gmap string file) (s' : state) :
  run dir = Ok tt s' ->
  exists d' x sr pr or,
    df s' = Some d' /\
    getcol "Input Size" (columns d') = Some x /\
    getcol "Sequential Relative" (columns d') = Some sr /\
    getcol "Parallel Relative" (columns d') = Some pr /\
    getcol "Optimized Relative" (columns d') = Some or /\
    cwd s' !! chart3_png = Some (Png 300 (figure3 (nrows d') x sr pr or)).
Proof.
  intros (header & lines & d & x & sq & pr & op & ps & os & _ & _ & Hx & _ & _ & _
          & _ & _ & ->)%run_inv.
  destruct (completed_files dir d x sq pr op ps os) as (_ & _ & H3 & _).
  exists (derived d sq pr op), x, (Int64 (repeat 1 (nrows d))),
    (truediv sq pr), (truediv sq op).
  split; [reflexivity|]. rewrite !getcol_derived. simpl.
  repeat split; assumption.
Qed.

Lemma chart3_shows_final_table_witness :
  exists d' x sr pr or,
    df (final (run stale_dir)) = Some d' /\
    getcol "Input Size" (columns d') = Some x /\
    getcol "Sequential Relative" (columns d') = Some sr /\
    getcol "Parallel Relative" (columns d') = Some pr /\
    getcol "Optimized Relative" (columns d') = Some or /\
    cwd (final (run stale_dir)) !! chart3_png
      = Some (Png 300 (figure3 (nrows d') x sr pr or)).
Proof.
  apply (chart3_shows_final_table stale_dir). vm_compute. reflexivity.
Defined.

(** X6.  The charts depend on the six report columns only.  If a run
    completes, a run on any other input whose table has the same six columns
    completes as well and writes the same three charts, whatever further
    columns either file carries. *)
Theorem charts_ignore_other_columns (dir1 dir2 : gmap string file) d1 d2 s1 :
  loaded_frame dir1 = Some d1 ->
  loaded_frame dir2 = Some d2 ->
  map (fun name => getcol name (columns d1)) report_columns
    = map (fun name => getcol name (columns d2)) report_columns ->
  run dir1 = Ok tt s1 ->
  exists s2, run dir2 = Ok tt s2 /\ charts (cwd s1) = charts (cwd s2).
Proof.
  intros (h1 & l1 & Hf1 & Hp1)%loaded_frame_Some (h2 & l2 & Hf2 & Hp2)%loaded_frame_Some
         Hsame
         (header & lines & d & x & sq & pr & op & ps & os & Hf & Hparse & Hx & Hsq
          & Hpr & Hop & Hps & Hos & ->)%run_inv.
  rewrite Hf1 in Hf. injection Hf as <- <-. rewrite Hp1 in Hparse.
  injection Hparse as <-.
  unfold report_columns in Hsame. cbn [map] in Hsame.
  rewrite Hx, Hsq, Hpr, Hop, Hps, Hos in Hsame.
  injection Hsame as Hx2 Hsq2 Hpr2 Hop2 Hps2 Hos2.
  exists (completed dir2 d2 x sq pr op ps os).
  split; [now apply (run_ok dir2 h2 l2)|].
  rewrite !completed_charts.
  assert (nrows d1 = nrows d2) as ->; [|reflexivity].
  rewrite <- (frame_ok_len d1 _ x (parse_frame_ok _ _ _ Hp1) Hx).
  now rewrite <- (frame_ok_len d2 "Input Size" x (parse_frame_ok _ _ _ Hp2)).
Qed.

Lemma charts_ignore_other_columns_witness :
  exists s2,
    run wide_dir = Ok tt s2 /\
    charts (cwd (final (run report_dir))) = charts (cwd s2).
Proof.
  apply (charts_ignore_other_columns report_dir wide_dir report_frame wide_frame);
    vm_compute; reflexivity.
Defined.

Lemma series_len_arange n : series_len (arange n) = n.
Proof. unfold arange. simpl. now rewrite length_map, length_seq. Qed.

Lemma series_len_sub_scalar a c : series_len (sub_scalar a c) = series_len a.
Proof. destruct a; simpl; now rewrite ?length_map. Qed.

Lemma series_len_add_scalar a c : series_len (add_scalar a c) = series_len a.
Proof. destruct a; simpl; now rewrite ?length_map. Qed.

(** X7.  In every chart of a completed run, each plotted pair of arrays
    (line x and y, bar positions and heights, tick positions and labels) has
    exactly one entry per data line of the input file, so no plotting call
    is handed arrays of different lengths. *)
Theorem chart_arrays_match_rows (dir : gmap string file) header lines s' :
  dir !! input_csv = Some (Csv header lines) ->
  run dir = Ok tt s' ->
  Forall (fun f => exists fig, f = Some (Png 300 fig) /\
                               shaped (length lines) fig = true)
    (charts (cwd s')).
Proof.
  intros Hf0
         (header' & lines' & d & x & sq & pr & op & ps & os & Hf & Hparse & Hx & Hsq
          & Hpr & Hop & Hps & Hos & ->)%run_inv.
  rewrite Hf0 in Hf. injection Hf as <- <-.
  pose proof (parse_frame_ok _ _ _ Hparse) as Hok.
  pose proof (parse_nrows _ _ _ Hparse) as Hn.
  assert (forall name v, getcol name (columns d) = Some v ->
                         Nat.eqb (series_len v) (length lines) = true) as Hlen.
  { intros name v Hv. apply Nat.eqb_eq. rewrite <- Hn. now apply (frame_ok_len d name). }
  assert (Nat.eqb (series_len (truediv sq pr)) (length lines) = true) as Hpr'.
  { apply Nat.eqb_eq, series_len_truediv; apply Nat.eqb_eq; eauto. }
  assert (Nat.eqb (series_len (truediv sq op)) (length lines) = true) as Hop'.
  { apply Nat.eqb_eq, series_len_truediv; apply Nat.eqb_eq; eauto. }
  rewrite completed_charts.
  repeat constructor; eexists; (split; [reflexivity|]);
    unfold shaped, figure1, figure2, figure3; cbn [artists forallb artist_shaped];
    rewrite ?series_len_sub_scalar, ?series_len_add_scalar, ?series_len_arange, ?Hn,
      ?Hpr', ?Hop', ?(Hlen _ _ Hx), ?(Hlen _ _ Hsq), ?(Hlen _ _ Hpr), ?(Hlen _ _ Hop),
      ?(Hlen _ _ Hps), ?(Hlen _ _ Hos), ?Nat.eqb_refl;
    cbn [series_len]; rewrite ?repeat_length, ?Nat.eqb_refl; reflexivity.
Qed.

Lemma chart_arrays_match_rows_witness :
  Forall (fun f => exists fig, f = Some (Png 300 fig) /\
                               shaped (length report_lines) fig = true)
    (charts (cwd (final (run report_dir)))).
Proof.
  apply (chart_arrays_match_rows report_dir report_columns report_lines);
    vm_compute; reflexivity.
Defined.

(** ** Column order *)







(** ** Incomplete data lines *)

Lemma all_int_floats cells zs :
  all_int cells = Some zs -> map of_int zs = map field_float cells.
Proof.
  revert zs. induction cells as [|c rest IH]; simpl; intros zs.
  - now intros [= <-].
  - destruct c; try discriminate.
    destruct (all_int rest) as [zs'|]; [|discriminate].
    intros [= <-]. simpl. f_equal. now apply IH.
Qed.

Lemma astype_float_infer cells : astype_float (infer cells) = map field_float cells.
Proof.
  unfold infer. destruct (all_int cells) as [zs|] eqn:E; simpl; [|reflexivity].
  now apply all_int_floats.
Qed.

(** The value of a loaded cell is the value of its field, whichever dtype
    was inferred for the column. *)
Lemma loaded_cell_value header lines d name j i line :
  parse header lines = Some d ->
  index_of name header = Some j ->
  lines !! i = Some line ->
  exists v, cell_at d name i = Some v /\
            as_float v = field_float (nth (leading_cols header lines + j) line Empty).
Proof.
  intros ->%parse_Some Hj Hline. unfold cell_at. cbn [columns].
  rewrite getcol_build_columns, Hj. simpl.
  set (cells := column_cells (leading_cols header lines + j) lines).
  assert (astype_float (infer cells) !! i
          = Some (field_float (nth (leading_cols header lines + j) line Empty))) as H.
  { rewrite astype_float_infer, list_lookup_fmap. unfold cells, column_cells.
    now rewrite list_lookup_fmap, Hline. }
  rewrite astype_float_lookup in H.
  destruct (series_at (infer cells) i) as [v|]; [|discriminate].
  exists v. split; [reflexivity|]. now injection H.
Qed.

Lemma div_nan_l y : div nan y = nan.
Proof. reflexivity. Qed.

Lemma div_nan_r x : div x nan = nan.
Proof. now destruct x. Qed.

(** X9.  A data line that lacks a time (an empty field, or a line that ends
    before the column) does not stop the derived-column computation: the
    field reads as NaN and the ratios it enters are NaN in that row.  An
    empty Sequential Time makes both ratios NaN, an empty Parallel Time the
    Parallel Relative, an empty Optimized Parallel Time the Optimized
    Relative. *)
Theorem empty_field_gives_nan (s : state) header lines d i line js jp jo :
  parse header lines = Some d ->
  df s = Some d ->
  index_of "Sequential Time" header = Some js ->
  index_of "Parallel Time" header = Some jp ->
  index_of "Optimized Parallel Time" header = Some jo ->
  lines !! i = Some line ->
  let field_of j := nth (leading_cols header lines + j) line Empty in
  exists s' d',
    derive_columns s = Ok tt s' /\ df s' = Some d' /\
    (field_of js = Empty \/ field_of jp = Empty ->
     cell_at d' "Parallel Relative" i = Some (NFloat nan)) /\
    (field_of js = Empty \/ field_of jo = Empty ->
     cell_at d' "Optimized Relative" i = Some (NFloat nan)).
Proof.
  intros Hparse Hd Hjs Hjp Hjo Hline field_of.
  pose proof (parse_frame_ok _ _ _ Hparse) as Hok.
  destruct (loaded_cell_value _ _ _ _ _ _ _ Hparse Hjs Hline) as (a & Ha & Hav).
  destruct (loaded_cell_value _ _ _ _ _ _ _ Hparse Hjp Hline) as (b & Hb & Hbv).
  destruct (loaded_cell_value _ _ _ _ _ _ _ Hparse Hjo Hline) as (c & Hc & Hcv).
  fold (field_of js) in Hav. fold (field_of jp) in Hbv. fold (field_of jo) in Hcv.
  unfold cell_at in Ha, Hb, Hc.
  destruct (getcol "Sequential Time" (columns d)) as [sq|] eqn:Hsq; [|discriminate].
  destruct (getcol "Parallel Time" (columns d)) as [pr|] eqn:Hpr; [|discriminate].
  destruct (getcol "Optimized Parallel Time" (columns d)) as [op|] eqn:Hop;
    [|discriminate].
  eexists _, (derived d sq pr op).
  split; [apply (derive_columns_ok s d sq pr op); assumption|].
  split; [reflexivity|].
  destruct (derived_cells d sq pr op i a b c Hok Hsq Ha Hb Hc) as (_ & Hp & Ho).
  rewrite Hp, Ho, Hav, Hbv, Hcv.
  split; intros [E|E]; rewrite E; simpl field_float;
    now rewrite ?div_nan_l, ?div_nan_r.
Qed.

Lemma empty_field_gives_nan_witness :
  exists s' d',
    derive_columns (loaded gappy_frame) = Ok tt s' /\ df s' = Some d' /\
    (nth 1 [IntLit 100; IntLit 10; Empty] Empty = Empty \/
     nth 2 [IntLit 100; IntLit 10; Empty] Empty = Empty ->
     cell_at d' "Parallel Relative" 0 = Some (NFloat nan)) /\
    (nth 1 [IntLit 100; IntLit 10; Empty] Empty = Empty \/
     nth 3 [IntLit 100; IntLit 10; Empty] Empty = Empty ->
     cell_at d' "Optimized Relative" 0 = Some (NFloat nan)).
Proof.
  apply (empty_field_gives_nan (loaded gappy_frame) times_header gappy_lines
           gappy_frame 0%nat [IntLit 100; IntLit 10; Empty] 1%nat 2%nat 3%nat);
    reflexivity.
Defined.

(** ** Running the derived-column lines again *)

Lemma setcol_same name v cols : getcol name cols = Some v -> setcol name v cols = cols.
Proof.
  induction cols as [|[k x] rest IH]; simpl; [discriminate|].
  destruct (String.eqb k name); [now intros [= ->] | intros H; now rewrite IH].
Qed.

Lemma derived_again d sq pr op :
  derived (derived d sq pr op) sq pr op = derived d sq pr op.
Proof.
  unfold derived at 1. cbn [nrows derived].
  set (D := derived d sq pr op).
  rewrite (setcol_same "Sequential Relative") by (unfold D; now rewrite getcol_derived).
  rewrite (setcol_same "Parallel Relative") by (unfold D; now rewrite getcol_derived).
  rewrite (setcol_same "Optimized Relative") by (unfold D; now rewrite getcol_derived).
  reflexivity.
Qed.

(** X10.  The derived-column lines are idempotent on the table: executed a
    second time they complete again and leave every column, loaded or
    derived, exactly as the first execution left it, since they read only
    columns they do not assign. *)
Theorem derive_columns_idempotent (s : state) d sq pr op :
  df s = Some d ->
  getcol "Sequential Time" (columns d) = Some sq ->
  getcol "Parallel Time" (columns d) = Some pr ->
  getcol "Optimized Parallel Time" (columns d) = Some op ->
  exists s1 s2,
    derive_columns s = Ok tt s1 /\
    derive_columns s1 = Ok tt s2 /\
    df s2 = df s1.
Proof.
  intros Hd Hsq Hpr Hop.
  eexists _, _. split; [apply (derive_columns_ok s d sq pr op); assumption|].
  split.
  - apply (derive_columns_ok _ (derived d sq pr op) sq pr op);
      [reflexivity | rewrite getcol_derived_other by reflexivity; assumption ..].
  - cbn [df]. now rewrite derived_again.
Qed.

Lemma derive_columns_idempotent_witness :
  exists s1 s2,
    derive_columns (loaded times_frame) = Ok tt s1 /\
    derive_columns s1 = Ok tt s2 /\
    df s2 = df s1.
Proof.
  apply (derive_columns_idempotent (loaded times_frame) times_frame
           (Int64 [10]) (Int64 [2]) (Int64 [1])); reflexivity.
Defined.

(** ** The order of the renders, on the trace and in the directory *)

(** Every file a run logs as saved is in the directory, and every other
    path is as the run found it. *)
Lemma saves_on_disk (dir : gmap string file) :
  (forall p, In p (saves (trace (final (run dir)))) ->
             exists fig, cwd (final (run dir)) !! p = Some (Png 300 fig)) /\
  (forall p, ~ In p (saves (trace (final (run dir)))) ->
             cwd (final (run dir)) !! p = dir !! p).
Proof.
  pose proof (run_outcome dir) as H.
  destruct (dir !! input_csv) as [[header lines| |]|];
    try (rewrite H; split; [intros p [] | reflexivity]).
  destruct (parse header lines) as [d|];
    [|rewrite H; split; [intros p [] | reflexivity]].
  destruct (find (missing (columns d)) time_columns) as [k|].
  { destruct H as (s' & -> & _ & Hc & Ht). cbn [final]. rewrite Ht, Hc.
    split; [intros p [] | reflexivity]. }
  destruct (find (missing (columns d)) speedup_columns) as [k|].
  - destruct H as (s' & x & sq & pr & op & -> & _ & Hc & Ht). cbn [final].
    rewrite Ht, Hc. split.
    + intros p [<-|[]]. eexists. apply write_file_eq.
    + intros p Hp. apply write_file_ne. intros <-. apply Hp. now left.
  - destruct H as (x & sq & pr & op & ps & os & ->). cbn [final].
    destruct (completed_files dir d x sq pr op ps os) as (H1 & H2 & H3 & Hrest).
    split.
    + intros p [<-|[<-|[<-|[]]]]; eauto.
    + intros p Hp. apply Hrest; intros ->; apply Hp; simpl; auto.
Qed.

(** A completed run, stage by stage. *)
Lemma run_stages (dir : gmap string file) (s' : state) :
  run dir = Ok tt s' ->
  exists s0 s1 s2 s3,
    read_csv input_csv (start dir) = Ok tt s0 /\ cwd s0 = dir /\
    plot1 s0 = Ok tt s1 /\ renders chart1_png 11 s0 s1 /\
    plot2 s1 = Ok tt s2 /\ renders chart2_png 10 s1 s2 /\
    derive_columns s2 = Ok tt s3 /\ cwd s3 = cwd s2 /\
    trace s3 = (trace s2 ++ derive_events)%list /\
    plot3 s3 = Ok tt s' /\ renders chart3_png 10 s3 s'.
Proof.
  intros Hrun.
  destruct (run_inv dir s' Hrun)
    as (header & lines & d & x & sq & pr & op & ps & os & Hf & Hparse & Hx & Hsq
        & Hpr & Hop & Hps & Hos & _).
  pose proof (read_csv_Some input_csv (start dir) header lines d Hf Hparse) as H0.
  cbn [start gcf cwd trace app] in H0.
  set (s0 := mkState (Some d) (mkFigure None []) dir [EvRead input_csv]) in H0.
  pose proof (plot1_ok s0 d x sq pr op eq_refl Hx Hsq Hpr Hop) as H1.
  set (s1 := mkState (Some d) (figure1 x sq pr op)
               (write_file chart1_png (Png 300 (figure1 x sq pr op)) (cwd s0))
               (trace s0 ++ chart_events chart1_png 11)) in H1.
  pose proof (plot2_ok s1 d x ps os eq_refl Hx Hps Hos) as H2.
  set (s2 := mkState (Some d) (figure2 x ps os)
               (write_file chart2_png (Png 300 (figure2 x ps os)) (cwd s1))
               (trace s1 ++ chart_events chart2_png 10)) in H2.
  pose proof (derive_columns_ok s2 d sq pr op eq_refl Hsq Hpr Hop) as H3.
  set (s3 := mkState (Some (derived d sq pr op)) (gcf s2) (cwd s2)
               (trace s2 ++ derive_events)) in H3.
  pose proof (plot3_ok s3 d x sq pr op eq_refl Hx) as H4. cbv zeta in H4.
  assert (plot3 s3 = Ok tt s') as H4'.
  { unfold run, script in Hrun.
    now rewrite (bind_Ok _ _ _ _ _ H0), (bind_Ok _ _ _ _ _ H1),
      (bind_Ok _ _ _ _ _ H2), (bind_Ok _ _ _ _ _ H3) in Hrun. }
  rewrite H4' in H4. injection H4 as Hs'.
  exists s0, s1, s2, s3.
  repeat split; try assumption; try reflexivity; rewrite Hs'; reflexivity.
Qed.

(** C9.  The effectful calls of every run follow one fixed order: the file
    is read; chart 1 is opened, drawn, written and shown; then chart 2
    likewise; then the three derived columns are assigned; then chart 3 is
    opened, drawn, written and shown.  A run that completes performs the
    whole of it, a run that raises a prefix of it.  The order is that of
    the directory too: however the run ends, each savefig it has performed
    is a file in the directory and no other file has changed; and in a
    completed run chart 2 is begun in a directory that already holds the
    finished chart 1, the derived columns are computed in the directory
    left by chart 2, which they do not touch, and chart 3 is begun only
    then, each chart writing exactly its own finished figure. *)
Theorem charts_render_in_order (dir : gmap string file) :
  schedule = ([EvRead input_csv] ++ chart_events chart1_png 11
                ++ chart_events chart2_png 10 ++ derive_events
                ++ chart_events chart3_png 10)%list /\
  match run dir with
  | Ok _ s' => trace s' = schedule
  | Raised _ s' => trace s' `prefix_of` schedule
  end /\
  (forall p, In p (saves (trace (final (run dir)))) ->
             exists fig, cwd (final (run dir)) !! p = Some (Png 300 fig)) /\
  (forall p, ~ In p (saves (trace (final (run dir)))) ->
             cwd (final (run dir)) !! p = dir !! p) /\
  (forall s', run dir = Ok tt s' ->
     exists s0 s1 s2 s3,
       read_csv input_csv (start dir) = Ok tt s0 /\ cwd s0 = dir /\
       plot1 s0 = Ok tt s1 /\ renders chart1_png 11 s0 s1 /\
       plot2 s1 = Ok tt s2 /\ renders chart2_png 10 s1 s2 /\
       derive_columns s2 = Ok tt s3 /\ cwd s3 = cwd s2 /\
       trace s3 = (trace s2 ++ derive_events)%list /\
       plot3 s3 = Ok tt s' /\ renders chart3_png 10 s3 s').
Proof.
  split; [reflexivity|]. split.
  { pose proof (emits_script (start dir)) as H. fold (run dir) in H.
    destruct (run dir) as [a s'|e s']; [exact H|].
    destruct H as (p & Hp & ->). exact Hp. }
  destruct (saves_on_disk dir) as [Hsaved Hother].
  split; [exact Hsaved|]. split; [exact Hother|].
  apply run_stages.
Qed.

Lemma charts_render_in_order_witness :
  exists s0 s1 s2 s3,
    read_csv input_csv (start report_dir_stale) = Ok tt s0 /\
    cwd s0 = report_dir_stale /\
    plot1 s0 = Ok tt s1 /\ renders chart1_png 11 s0 s1 /\
    plot2 s1 = Ok tt s2 /\ renders chart2_png 10 s1 s2 /\
    derive_columns s2 = Ok tt s3 /\ cwd s3 = cwd s2 /\
    trace s3 = (trace s2 ++ derive_events)%list /\
    plot3 s3 = Ok tt (final (run report_dir_stale)) /\
    renders chart3_png 10 s3 (final (run report_dir_stale)).
Proof.
  apply (charts_render_in_order report_dir_stale). vm_compute. reflexivity.
Defined.
